(** * Voice interaction client: the voice store and the voice chat hook

    A shallow embedding of the zustand voice store (frontend stores,
    [useVoiceStore]) and of the React hook that drives it ([useVoiceChat]),
    with the session properties stated and proved over it.

    The store is a record; every zustand [set({...})] is a record update that
    touches the listed keys only.  Browser objects (sockets, recorders) live
    in an explicit heap indexed by creation order, and whatever the page asks
    of the browser is appended to a trace. *)

From stdpp Require Import base strings gmap list.

Open Scope string_scope.
Open Scope list_scope.

(** ** Data model (the [types] module of the front end) *)

Module ConnectionStatus.
Inductive t := disconnected | connecting | connected | error.
#[global] Instance eq_dec : EqDecision t.
Proof. solve_decision. Defined.
End ConnectionStatus.

Module Urgency.
Inductive t := low | medium | high | emergency.
#[global] Instance eq_dec : EqDecision t.
Proof. solve_decision. Defined.
End Urgency.

Module MessageType.
Inductive t := user | assistant.
#[global] Instance eq_dec : EqDecision t.
Proof. solve_decision. Defined.
End MessageType.

(** [VoiceMessage].  [timestamp] is only ever written with a string;
    [confidence] is never read or written by the store or the hook and is
    left out. *)
Module VoiceMessage.
Record t := mk {
  id : string;
  type : MessageType.t;
  content : string;
  timestamp : string;
  intent : option string;
  entities : option (gmap string string);
  urgency : option Urgency.t;
  isAudio : option bool;
  processing : option bool
}.
End VoiceMessage.

(** [Omit<VoiceMessage, 'id'>], the argument of [addMessage]. *)
Module OmitId.
Record t := mk {
  type : MessageType.t;
  content : string;
  timestamp : string;
  intent : option string;
  entities : option (gmap string string);
  urgency : option Urgency.t;
  isAudio : option bool;
  processing : option bool
}.
End OmitId.

(** [Partial<VoiceMessage>], the argument of [updateLastMessage]: a key is
    either absent or carries its new value. *)
Module PartialMessage.
Record t := mk {
  id : option string;
  type : option MessageType.t;
  content : option string;
  timestamp : option string;
  intent : option string;
  entities : option (gmap string string);
  urgency : option Urgency.t;
  isAudio : option bool;
  processing : option bool
}.
End PartialMessage.

(** [ai_response].  [extracted_info] is [None] when the reply comes without
    it (or with [null] for it). *)
Module AiResponse.
Record t := mk {
  text : string;
  intent : string;
  extracted_info : option (gmap string string)
}.
End AiResponse.

(** [appointment_action]; the nested appointment is only logged, so it is
    carried as its JSON text. *)
Module AppointmentAction.
Record t := mk {
  status : string;
  message : string;
  appointment : option string;
  available_slots : option (list string);
  missing : option (list string)
}.
End AppointmentAction.

Module VoiceResponse.
Record t := mk {
  transcript : option string;
  ai_response : option AiResponse.t;
  audio_response : option string;
  timestamp : string;
  error : option string;
  appointment_action : option AppointmentAction.t
}.
End VoiceResponse.

(** [VoiceStore extends VoiceState]: the state part of the store. *)
Module VoiceStore.
Record t := mk {
  isRecording : bool;
  isProcessing : bool;
  isPlaying : bool;
  messages : list VoiceMessage.t;
  currentTranscript : string;
  connectionStatus : ConnectionStatus.t;
  currentIntent : option string;
  extractedEntities : option (gmap string string);
  suggestions : option (list string);
  urgencyLevel : option Urgency.t;
  error : option string
}.
End VoiceStore.

(** ** The browser as the page sees it *)

(** What the page asks of the browser, in program order. *)
Inductive Effect :=
| console_error (msg : string)
| console_log (msg : string)
| alert (msg : string)
| Audio_play (audioData : string)
| document_click_listener (audioData : string)
| decodeAudioData (base64Audio : string)
| source_start (base64Audio : string)
| new_WebSocket (url : string)
| WebSocket_send (ws : nat) (data : string)
| WebSocket_close (ws : nat)
| getUserMedia
| MediaRecorder_start (rec : nat) (timeslice : nat)
| MediaRecorder_stop (rec : nat)
| tracks_stop (rec : nat)
| setTimeout (ms : nat).

Module ReadyState.
Inductive t := CONNECTING | OPEN | CLOSING | CLOSED.
#[global] Instance eq_dec : EqDecision t.
Proof. solve_decision. Defined.
End ReadyState.

Module RecordingState.
Inductive t := inactive | recording.
#[global] Instance eq_dec : EqDecision t.
Proof. solve_decision. Defined.
End RecordingState.

(** A [MediaRecorder] together with the stream it was built on. *)
Module MediaRecorder.
Record t := mk {
  state : RecordingState.t;
  tracks_live : bool
}.
End MediaRecorder.

(** The refs of [useVoiceChat] and the objects they point into.  A socket or
    a recorder is named by its position in [sockets] / [recorders]; a ref
    holds such a position or [None] for [null]. *)
Module Hook.
Record t := mk {
  sockets : list ReadyState.t;
  websocketRef : option nat;
  recorders : list MediaRecorder.t;
  mediaRecorderRef : option nat;
  audioChunksRef : list string;
  audioContextRef : bool
}.
End Hook.

(** What [JSON.parse] makes of a frame.  Values are read at the declared type
    [VoiceResponse]; [null] is the one value whose first property read
    throws. *)
Inductive Parsed :=
| SyntaxError
| json_null
| json_object (response : VoiceResponse.t).

(** Builtins whose results the page does not determine.  Clock and random
    reads are indexed by the number of such reads made so far. *)
Record Host := {
  Date_now : nat -> string;
  Math_random : nat -> string;
  Date_toISOString : nat -> string;
  atob : string -> option string;
  btoa_fromCharCode : string -> option string;
  JSON_parse : string -> Parsed;
  AudioContext_available : bool
}.

Record World := {
  store : VoiceStore.t;
  hook : Hook.t;
  tick : nat;
  trace : list Effect
}.

Definition with_store (f : VoiceStore.t -> VoiceStore.t) (w : World) : World :=
  {| store := f (store w); hook := hook w; tick := tick w; trace := trace w |}.

Definition with_hook (f : Hook.t -> Hook.t) (w : World) : World :=
  {| store := store w; hook := f (hook w); tick := tick w; trace := trace w |}.

Definition emit (e : Effect) (w : World) : World :=
  {| store := store w; hook := hook w; tick := tick w; trace := trace w ++ [e] |}.

Definition next_tick (w : World) : World :=
  {| store := store w; hook := hook w; tick := S (tick w); trace := trace w |}.

(** JavaScript truthiness of a string-valued optional field: [undefined] and
    the empty string are falsy. *)
Definition truthy (v : option string) : bool :=
  match v with
  | Some "" => false
  | Some _ => true
  | None => false
  end.

(** ** The voice store ([useVoiceStore]) *)

(** The state [create] starts from. *)
Definition initial_store : VoiceStore.t :=
  {| VoiceStore.isRecording := false;
     VoiceStore.isProcessing := false;
     VoiceStore.isPlaying := false;
     VoiceStore.messages := [];
     VoiceStore.currentTranscript := "";
     VoiceStore.connectionStatus := ConnectionStatus.disconnected;
     VoiceStore.currentIntent := None;
     VoiceStore.extractedEntities := None;
     VoiceStore.suggestions := None;
     VoiceStore.urgencyLevel := None;
     VoiceStore.error := None |}.

Module Set_.
Import VoiceStore.

Definition isRecording (v : bool) (s : t) : t :=
  {| isRecording := v; isProcessing := isProcessing s; isPlaying := isPlaying s;
     messages := messages s; currentTranscript := currentTranscript s;
     connectionStatus := connectionStatus s; currentIntent := currentIntent s;
     extractedEntities := extractedEntities s; suggestions := suggestions s;
     urgencyLevel := urgencyLevel s; error := error s |}.

Definition isProcessing (v : bool) (s : t) : t :=
  {| VoiceStore.isRecording := VoiceStore.isRecording s; isProcessing := v;
     isPlaying := isPlaying s;
     messages := messages s; currentTranscript := currentTranscript s;
     connectionStatus := connectionStatus s; currentIntent := currentIntent s;
     extractedEntities := extractedEntities s; suggestions := suggestions s;
     urgencyLevel := urgencyLevel s; error := error s |}.

Definition isPlaying (v : bool) (s : t) : t :=
  {| VoiceStore.isRecording := VoiceStore.isRecording s;
     VoiceStore.isProcessing := VoiceStore.isProcessing s; isPlaying := v;
     messages := messages s; currentTranscript := currentTranscript s;
     connectionStatus := connectionStatus s; currentIntent := currentIntent s;
     extractedEntities := extractedEntities s; suggestions := suggestions s;
     urgencyLevel := urgencyLevel s; error := error s |}.

Definition messages (v : list VoiceMessage.t) (s : t) : t :=
  {| VoiceStore.isRecording := VoiceStore.isRecording s;
     VoiceStore.isProcessing := VoiceStore.isProcessing s;
     VoiceStore.isPlaying := VoiceStore.isPlaying s;
     messages := v; currentTranscript := currentTranscript s;
     connectionStatus := connectionStatus s; currentIntent := currentIntent s;
     extractedEntities := extractedEntities s; suggestions := suggestions s;
     urgencyLevel := urgencyLevel s; error := error s |}.

Definition currentTranscript (v : string) (s : t) : t :=
  {| VoiceStore.isRecording := VoiceStore.isRecording s;
     VoiceStore.isProcessing := VoiceStore.isProcessing s;
     VoiceStore.isPlaying := VoiceStore.isPlaying s;
     VoiceStore.messages := VoiceStore.messages s; currentTranscript := v;
     connectionStatus := connectionStatus s; currentIntent := currentIntent s;
     extractedEntities := extractedEntities s; suggestions := suggestions s;
     urgencyLevel := urgencyLevel s; error := error s |}.

Definition connectionStatus (v : ConnectionStatus.t) (s : t) : t :=
  {| VoiceStore.isRecording := VoiceStore.isRecording s;
     VoiceStore.isProcessing := VoiceStore.isProcessing s;
     VoiceStore.isPlaying := VoiceStore.isPlaying s;
     VoiceStore.messages := VoiceStore.messages s;
     VoiceStore.currentTranscript := VoiceStore.currentTranscript s;
     connectionStatus := v; currentIntent := currentIntent s;
     extractedEntities := extractedEntities s; suggestions := suggestions s;
     urgencyLevel := urgencyLevel s; error := error s |}.

Definition currentIntent (v : option string) (s : t) : t :=
  {| VoiceStore.isRecording := VoiceStore.isRecording s;
     VoiceStore.isProcessing := VoiceStore.isProcessing s;
     VoiceStore.isPlaying := VoiceStore.isPlaying s;
     VoiceStore.messages := VoiceStore.messages s;
     VoiceStore.currentTranscript := VoiceStore.currentTranscript s;
     VoiceStore.connectionStatus := VoiceStore.connectionStatus s;
     currentIntent := v;
     extractedEntities := extractedEntities s; suggestions := suggestions s;
     urgencyLevel := urgencyLevel s; error := error s |}.

Definition extractedEntities (v : option (gmap string string)) (s : t) : t :=
  {| VoiceStore.isRecording := VoiceStore.isRecording s;
     VoiceStore.isProcessing := VoiceStore.isProcessing s;
     VoiceStore.isPlaying := VoiceStore.isPlaying s;
     VoiceStore.messages := VoiceStore.messages s;
     VoiceStore.currentTranscript := VoiceStore.currentTranscript s;
     VoiceStore.connectionStatus := VoiceStore.connectionStatus s;
     VoiceStore.currentIntent := VoiceStore.currentIntent s;
     extractedEntities := v; suggestions := suggestions s;
     urgencyLevel := urgencyLevel s; error := error s |}.

Definition suggestions (v : option (list string)) (s : t) : t :=
  {| VoiceStore.isRecording := VoiceStore.isRecording s;
     VoiceStore.isProcessing := VoiceStore.isProcessing s;
     VoiceStore.isPlaying := VoiceStore.isPlaying s;
     VoiceStore.messages := VoiceStore.messages s;
     VoiceStore.currentTranscript := VoiceStore.currentTranscript s;
     VoiceStore.connectionStatus := VoiceStore.connectionStatus s;
     VoiceStore.currentIntent := VoiceStore.currentIntent s;
     VoiceStore.extractedEntities := VoiceStore.extractedEntities s;
     suggestions := v;
     urgencyLevel := urgencyLevel s; error := error s |}.

Definition urgencyLevel (v : option Urgency.t) (s : t) : t :=
  {| VoiceStore.isRecording := VoiceStore.isRecording s;
     VoiceStore.isProcessing := VoiceStore.isProcessing s;
     VoiceStore.isPlaying := VoiceStore.isPlaying s;
     VoiceStore.messages := VoiceStore.messages s;
     VoiceStore.currentTranscript := VoiceStore.currentTranscript s;
     VoiceStore.connectionStatus := VoiceStore.connectionStatus s;
     VoiceStore.currentIntent := VoiceStore.currentIntent s;
     VoiceStore.extractedEntities := VoiceStore.extractedEntities s;
     VoiceStore.suggestions := VoiceStore.suggestions s;
     urgencyLevel := v; error := error s |}.

Definition error (v : option string) (s : t) : t :=
  {| VoiceStore.isRecording := VoiceStore.isRecording s;
     VoiceStore.isProcessing := VoiceStore.isProcessing s;
     VoiceStore.isPlaying := VoiceStore.isPlaying s;
     VoiceStore.messages := VoiceStore.messages s;
     VoiceStore.currentTranscript := VoiceStore.currentTranscript s;
     VoiceStore.connectionStatus := VoiceStore.connectionStatus s;
     VoiceStore.currentIntent := VoiceStore.currentIntent s;
     VoiceStore.extractedEntities := VoiceStore.extractedEntities s;
     VoiceStore.suggestions := VoiceStore.suggestions s;
     VoiceStore.urgencyLevel := VoiceStore.urgencyLevel s;
     error := v |}.

End Set_.

(** [{...message, id}] *)
Definition with_id (id : string) (message : OmitId.t) : VoiceMessage.t :=
  {| VoiceMessage.id := id;
     VoiceMessage.type := OmitId.type message;
     VoiceMessage.content := OmitId.content message;
     VoiceMessage.timestamp := OmitId.timestamp message;
     VoiceMessage.intent := OmitId.intent message;
     VoiceMessage.entities := OmitId.entities message;
     VoiceMessage.urgency := OmitId.urgency message;
     VoiceMessage.isAudio := OmitId.isAudio message;
     VoiceMessage.processing := OmitId.processing message |}.

(** [{...last, ...updates}]: a key of [updates] wins where it is there. *)
Definition patch (last : VoiceMessage.t) (updates : PartialMessage.t) : VoiceMessage.t :=
  {| VoiceMessage.id := default (VoiceMessage.id last) (PartialMessage.id updates);
     VoiceMessage.type := default (VoiceMessage.type last) (PartialMessage.type updates);
     VoiceMessage.content :=
       default (VoiceMessage.content last) (PartialMessage.content updates);
     VoiceMessage.timestamp :=
       default (VoiceMessage.timestamp last) (PartialMessage.timestamp updates);
     VoiceMessage.intent :=
       from_option Some (VoiceMessage.intent last) (PartialMessage.intent updates);
     VoiceMessage.entities :=
       from_option Some (VoiceMessage.entities last) (PartialMessage.entities updates);
     VoiceMessage.urgency :=
       from_option Some (VoiceMessage.urgency last) (PartialMessage.urgency updates);
     VoiceMessage.isAudio :=
       from_option Some (VoiceMessage.isAudio last) (PartialMessage.isAudio updates);
     VoiceMessage.processing :=
       from_option Some (VoiceMessage.processing last)
         (PartialMessage.processing updates) |}.

Section Store.

Variable host : Host.

(** *** Actions *)

Definition setRecording (isRecording : bool) : World -> World :=
  with_store (Set_.isRecording isRecording).

Definition setProcessing (isProcessing : bool) : World -> World :=
  with_store (Set_.isProcessing isProcessing).

Definition setPlaying (isPlaying : bool) : World -> World :=
  with_store (Set_.isPlaying isPlaying).

Definition setConnectionStatus (connectionStatus : ConnectionStatus.t) : World -> World :=
  with_store (Set_.connectionStatus connectionStatus).

Definition setError (error : option string) : World -> World :=
  with_store (Set_.error error).

(** The id is [`msg_${Date.now()}_${Math.random()}`]: two reads of the host, in
    that order. *)
Definition addMessage (message : OmitId.t) (w : World) : World :=
  let now := Date_now host (tick w) in
  let w := next_tick w in
  let rnd := Math_random host (tick w) in
  let w := next_tick w in
  let id := "msg_" +:+ now +:+ "_" +:+ rnd in
  with_store
    (fun state => Set_.messages (VoiceStore.messages state ++ [with_id id message]) state)
    w.

(** [messages[messages.length - 1] = {...}] on a copy, when there is a last
    message. *)
Definition updateLastMessage (updates : PartialMessage.t) : World -> World :=
  with_store (fun state =>
    let messages := VoiceStore.messages state in
    let messages :=
      if decide (0 < length messages)
      then alter (fun last => patch last updates) (length messages - 1) messages
      else messages in
    Set_.messages messages state).

Definition setCurrentTranscript (currentTranscript : string) : World -> World :=
  with_store (Set_.currentTranscript currentTranscript).

Definition updateCurrentIntent (currentIntent : string) : World -> World :=
  with_store (Set_.currentIntent (Some currentIntent)).

Definition updateExtractedEntities (extractedEntities : gmap string string)
  : World -> World :=
  with_store (Set_.extractedEntities (Some extractedEntities)).

Definition updateSuggestions (suggestions : list string) : World -> World :=
  with_store (Set_.suggestions (Some suggestions)).

Definition updateUrgencyLevel (urgencyLevel : Urgency.t) : World -> World :=
  with_store (Set_.urgencyLevel (Some urgencyLevel)).

Definition clearMessages : World -> World :=
  with_store (fun state =>
    {| VoiceStore.messages := [];
       VoiceStore.currentTranscript := "";
       VoiceStore.currentIntent := None;
       VoiceStore.extractedEntities := None;
       VoiceStore.suggestions := None;
       VoiceStore.isRecording := VoiceStore.isRecording state;
       VoiceStore.isProcessing := VoiceStore.isProcessing state;
       VoiceStore.isPlaying := VoiceStore.isPlaying state;
       VoiceStore.connectionStatus := VoiceStore.connectionStatus state;
       VoiceStore.urgencyLevel := VoiceStore.urgencyLevel state;
       VoiceStore.error := VoiceStore.error state |}).

Definition reset : World -> World :=
  with_store (fun state =>
    {| VoiceStore.messages := [];
       VoiceStore.currentTranscript := "";
       VoiceStore.currentIntent := None;
       VoiceStore.extractedEntities := None;
       VoiceStore.suggestions := None;
       VoiceStore.urgencyLevel := None;
       VoiceStore.error := None;
       VoiceStore.isRecording := false;
       VoiceStore.isProcessing := false;
       VoiceStore.isPlaying := false;
       VoiceStore.connectionStatus := VoiceStore.connectionStatus state |}).

(** The message appended for a backend error; its timestamp is
    [new Date().toISOString()], read before [addMessage] runs. *)
Definition error_message (error timestamp : string) : OmitId.t :=
  {| OmitId.type := MessageType.assistant;
     OmitId.content := "I'm sorry, there was an error: " +:+ error;
     OmitId.timestamp := timestamp;
     OmitId.intent := None; OmitId.entities := None; OmitId.urgency := None;
     OmitId.isAudio := None; OmitId.processing := None |}.

Definition user_message (transcript timestamp : string) : OmitId.t :=
  {| OmitId.type := MessageType.user;
     OmitId.content := transcript;
     OmitId.timestamp := timestamp;
     OmitId.isAudio := Some true;
     OmitId.intent := None; OmitId.entities := None; OmitId.urgency := None;
     OmitId.processing := None |}.

(** [aiMessage]; [isAudio] is [!!response.audio_response]. *)
Definition aiMessage (response : VoiceResponse.t) (ai : AiResponse.t) : OmitId.t :=
  {| OmitId.type := MessageType.assistant;
     OmitId.content := AiResponse.text ai;
     OmitId.timestamp := VoiceResponse.timestamp response;
     OmitId.isAudio := Some (truthy (VoiceResponse.audio_response response));
     OmitId.intent := Some (AiResponse.intent ai);
     OmitId.entities := AiResponse.extracted_info ai;
     OmitId.urgency := None; OmitId.processing := None |}.

(** The audio branch of [processVoiceResponse]: [atob] may throw, which the
    enclosing [try] logs; otherwise [playAudio()] runs up to its first
    [await], that is through [setPlaying(true)] and the call of
    [audio.play()]. *)
Definition play_in_store (audioData : string) (w : World) : World :=
  match atob host audioData with
  | None => emit (console_error "Error playing audio:") w
  | Some _ => emit (Audio_play audioData) (setPlaying true w)
  end.

(** [audio.play()] rejected (autoplay policy): the [catch] of [playAudio]. *)
Definition playAudio_rejected (audioData : string) (w : World) : World :=
  let w := emit (console_error "Audio play failed:") w in
  let w := setPlaying false w in
  emit (document_click_listener audioData) w.

(** [audio.onended], installed once [audio.play()] has resolved. *)
Definition audio_onended : World -> World := setPlaying false.

Definition processVoiceResponse (response : VoiceResponse.t) (w : World) : World :=
  let w := setProcessing false w in
  (* Handle errors *)
  if truthy (VoiceResponse.error response) then
    let w := setError (VoiceResponse.error response) w in
    let timestamp := Date_toISOString host (tick w) in
    let w := next_tick w in
    addMessage (error_message (default "" (VoiceResponse.error response)) timestamp) w
  else
    let w := setError None w in
    (* Add user message if transcript exists *)
    let w :=
      if truthy (VoiceResponse.transcript response)
      then addMessage
             (user_message (default "" (VoiceResponse.transcript response))
                (VoiceResponse.timestamp response)) w
      else w in
    (* Process AI response *)
    let w :=
      match VoiceResponse.ai_response response with
      | Some ai =>
          if truthy (Some (AiResponse.text ai)) then
            let w := addMessage (aiMessage response ai) w in
            let w :=
              if truthy (Some (AiResponse.intent ai))
              then updateCurrentIntent (AiResponse.intent ai) w
              else w in
            (* an object, however empty, is truthy *)
            match AiResponse.extracted_info ai with
            | Some extracted_info => updateExtractedEntities extracted_info w
            | None => w
            end
          else w
      | None => w
      end in
    (* Play audio if available *)
    let w :=
      match VoiceResponse.audio_response response with
      | Some audioData =>
          if truthy (Some audioData) then play_in_store audioData w else w
      | None => w
      end in
    (* Handle appointment actions *)
    match VoiceResponse.appointment_action response with
    | Some _ => emit (console_log "Appointment action:") w
    | None => w
    end.

(** Every action of the store, with its arguments. *)
Inductive Action :=
| SetRecording (isRecording : bool)
| SetProcessing (isProcessing : bool)
| SetPlaying (isPlaying : bool)
| SetConnectionStatus (status : ConnectionStatus.t)
| SetError (error : option string)
| AddMessage (message : OmitId.t)
| UpdateLastMessage (updates : PartialMessage.t)
| SetCurrentTranscript (transcript : string)
| UpdateCurrentIntent (intent : string)
| UpdateExtractedEntities (entities : gmap string string)
| UpdateSuggestions (suggestions : list string)
| UpdateUrgencyLevel (level : Urgency.t)
| ClearMessages
| Reset
| ProcessVoiceResponse (response : VoiceResponse.t).

Definition dispatch (a : Action) : World -> World :=
  match a with
  | SetRecording b => setRecording b
  | SetProcessing b => setProcessing b
  | SetPlaying b => setPlaying b
  | SetConnectionStatus c => setConnectionStatus c
  | SetError e => setError e
  | AddMessage m => addMessage m
  | UpdateLastMessage u => updateLastMessage u
  | SetCurrentTranscript t => setCurrentTranscript t
  | UpdateCurrentIntent i => updateCurrentIntent i
  | UpdateExtractedEntities e => updateExtractedEntities e
  | UpdateSuggestions l => updateSuggestions l
  | UpdateUrgencyLevel u => updateUrgencyLevel u
  | ClearMessages => clearMessages
  | Reset => reset
  | ProcessVoiceResponse r => processVoiceResponse r
  end.

End Store.

(** ** The voice chat hook ([useVoiceChat]) *)

Module Ref.
Import Hook.

Definition sockets (v : list ReadyState.t) (h : t) : t :=
  {| sockets := v; websocketRef := websocketRef h; recorders := recorders h;
     mediaRecorderRef := mediaRecorderRef h; audioChunksRef := audioChunksRef h;
     audioContextRef := audioContextRef h |}.

Definition websocketRef (v : option nat) (h : t) : t :=
  {| Hook.sockets := Hook.sockets h; websocketRef := v; recorders := recorders h;
     mediaRecorderRef := mediaRecorderRef h; audioChunksRef := audioChunksRef h;
     audioContextRef := audioContextRef h |}.

Definition recorders (v : list MediaRecorder.t) (h : t) : t :=
  {| Hook.sockets := Hook.sockets h; Hook.websocketRef := Hook.websocketRef h;
     recorders := v;
     mediaRecorderRef := mediaRecorderRef h; audioChunksRef := audioChunksRef h;
     audioContextRef := audioContextRef h |}.

Definition mediaRecorderRef (v : option nat) (h : t) : t :=
  {| Hook.sockets := Hook.sockets h; Hook.websocketRef := Hook.websocketRef h;
     Hook.recorders := Hook.recorders h;
     mediaRecorderRef := v; audioChunksRef := audioChunksRef h;
     audioContextRef := audioContextRef h |}.

Definition audioChunksRef (v : list string) (h : t) : t :=
  {| Hook.sockets := Hook.sockets h; Hook.websocketRef := Hook.websocketRef h;
     Hook.recorders := Hook.recorders h;
     Hook.mediaRecorderRef := Hook.mediaRecorderRef h; audioChunksRef := v;
     audioContextRef := audioContextRef h |}.

Definition audioContextRef (v : bool) (h : t) : t :=
  {| Hook.sockets := Hook.sockets h; Hook.websocketRef := Hook.websocketRef h;
     Hook.recorders := Hook.recorders h;
     Hook.mediaRecorderRef := Hook.mediaRecorderRef h;
     Hook.audioChunksRef := Hook.audioChunksRef h;
     audioContextRef := v |}.

End Ref.

(** [useRef] initial values: no socket, no recorder, no chunks, no context. *)
Definition initial_hook : Hook.t :=
  {| Hook.sockets := []; Hook.websocketRef := None;
     Hook.recorders := []; Hook.mediaRecorderRef := None;
     Hook.audioChunksRef := []; Hook.audioContextRef := false |}.

Definition initial_world : World :=
  {| store := initial_store; hook := initial_hook; tick := 0; trace := [] |}.

(** [websocketRef.current?.readyState] *)
Definition readyState (h : Hook.t) : option ReadyState.t :=
  i ← Hook.websocketRef h; Hook.sockets h !! i.

(** How [getUserMedia] and the [MediaRecorder] constructor turn out. *)
Inductive Microphone :=
| denied
| granted (webm_supported : bool).

Section VoiceChat.

Variable host : Host.
Variable apiUrl : string.

(** *** Connection *)

Definition connect (w : World) : World :=
  if decide (readyState (hook w) = Some ReadyState.OPEN) then w
  else
    let w := setConnectionStatus ConnectionStatus.connecting w in
    let w := emit (new_WebSocket apiUrl) w in
    let ws := length (Hook.sockets (hook w)) in
    let w := with_hook
               (Ref.sockets (Hook.sockets (hook w) ++ [ReadyState.CONNECTING])) w in
    with_hook (Ref.websocketRef (Some ws)) w.

(** [playAudioResponse] up to [await decodeAudioData]: creating the context
    or [atob] may throw, and the [catch] logs it. *)
Definition playAudioResponse (base64Audio : string) (w : World) : World :=
  if negb (Hook.audioContextRef (hook w)) && negb (AudioContext_available host)
  then emit (console_error "Error playing audio:") w
  else
    let w := with_hook (Ref.audioContextRef true) w in
    match atob host base64Audio with
    | None => emit (console_error "Error playing audio:") w
    | Some _ => emit (decodeAudioData base64Audio) w
    end.

(** ... and from there on: [source.start()], or the [catch]. *)
Definition playAudioResponse_decoded (base64Audio : string) (ok : bool) (w : World)
  : World :=
  if ok then emit (source_start base64Audio) w
  else emit (console_error "Error playing audio:") w.

Definition ws_onopen (w : World) : World :=
  let w := emit (console_log "Connected to voice chat") w in
  setConnectionStatus ConnectionStatus.connected w.

(** [ws.onmessage].  On [null] the call of [processVoiceResponse] gets as far
    as [setProcessing(false)] and throws at [response.error]; the handler's
    [catch] takes over. *)
Definition ws_onmessage (data : string) (w : World) : World :=
  match JSON_parse host data with
  | SyntaxError =>
      let w := emit (console_error "Error parsing WebSocket message:") w in
      setProcessing false w
  | json_null =>
      let w := setProcessing false w in
      let w := emit (console_error "Error parsing WebSocket message:") w in
      setProcessing false w
  | json_object response =>
      let w := processVoiceResponse host response w in
      let w :=
        match VoiceResponse.audio_response response with
        | Some base64Audio =>
            if truthy (Some base64Audio) then playAudioResponse base64Audio w else w
        | None => w
        end in
      setProcessing false w
  end.

Definition ws_onerror (w : World) : World :=
  let w := emit (console_error "WebSocket error:") w in
  let w := setConnectionStatus ConnectionStatus.error w in
  setProcessing false w.

Definition ws_onclose (w : World) : World :=
  let w := emit (console_log "Disconnected from voice chat") w in
  let w := setConnectionStatus ConnectionStatus.disconnected w in
  setProcessing false w.

(** What a socket made by [connect] can be told by the browser. *)
Inductive SocketEvent :=
| open
| message (data : string)
| error
| close.

(** The browser moves the socket's [readyState] and then runs the handler. *)
Definition deliver (ws : nat) (e : SocketEvent) (w : World) : World :=
  match Hook.sockets (hook w) !! ws with
  | None => w
  | Some _ =>
      match e with
      | open =>
          ws_onopen
            (with_hook (fun h => Ref.sockets (<[ws := ReadyState.OPEN]> (Hook.sockets h)) h) w)
      | message data => ws_onmessage data w
      | error => ws_onerror w
      | close =>
          ws_onclose
            (with_hook (fun h => Ref.sockets (<[ws := ReadyState.CLOSED]> (Hook.sockets h)) h) w)
      end
  end.

(** [ws.close()]: an open or opening socket starts closing. *)
Definition WebSocket_close_call (ws : nat) (w : World) : World :=
  let w := emit (WebSocket_close ws) w in
  with_hook (fun h =>
    Ref.sockets
      (alter (fun st =>
                match st with
                | ReadyState.CONNECTING | ReadyState.OPEN => ReadyState.CLOSING
                | _ => st
                end) ws (Hook.sockets h)) h) w.

(** [resetConnection], up to the timer; the timer then calls [connect]. *)
Definition resetConnection (w : World) : World :=
  let w :=
    match Hook.websocketRef (hook w) with
    | Some ws => with_hook (Ref.websocketRef None) (WebSocket_close_call ws w)
    | None => w
    end in
  let w := setError None w in
  emit (setTimeout 1000) w.

Definition resetConnection_timeout : World -> World := connect.

(** *** Sending *)

Definition quote : string := String (Ascii.ascii_of_nat 34) "".

(** [JSON.stringify({ type: 'audio', audio: base64Audio })]; base64 text needs
    no escaping. *)
Definition JSON_stringify_audio (base64Audio : string) : string :=
  "{" +:+ quote +:+ "type" +:+ quote +:+ ":" +:+ quote +:+ "audio" +:+ quote +:+ ","
  +:+ quote +:+ "audio" +:+ quote +:+ ":" +:+ quote +:+ base64Audio +:+ quote +:+ "}".

(** [sendAudioToServer] up to [await audioBlob.arrayBuffer()].  The result
    says whether the call is suspended there ([Some audioBlob]) or has
    returned ([None]). *)
Definition sendAudioToServer (audioBlob : string) (w : World) : World * option string :=
  if decide (readyState (hook w) = Some ReadyState.OPEN) then (w, Some audioBlob)
  else
    let w := emit (console_error "WebSocket not connected") w in
    let w := setProcessing false w in
    (w, None).

(** ... and from there on.  [btoa(String.fromCharCode(...bytes))] may throw;
    so does [send] on a [null] ref or on a socket that is still connecting; a
    closing or closed socket discards the frame. *)
Definition sendAudioToServer_resumed (audioBlob : string) (w : World) : World :=
  let failed w :=
    let w := emit (console_error "Error sending audio:") w in
    setProcessing false w in
  match btoa_fromCharCode host audioBlob with
  | None => failed w
  | Some base64Audio =>
      match Hook.websocketRef (hook w) with
      | None => failed w
      | Some ws =>
          match Hook.sockets (hook w) !! ws with
          | Some ReadyState.OPEN =>
              emit (WebSocket_send ws (JSON_stringify_audio base64Audio)) w
          | Some ReadyState.CONNECTING | None => failed w
          | Some _ => w
          end
      end
  end.

(** *** Recording *)

(** [startRecording] up to [await getUserMedia(...)]. *)
Definition startRecording_call (w : World) : World := emit getUserMedia w.

(** ... and from there on. *)
Definition startRecording_resumed (mic : Microphone) (w : World) : World :=
  let failed w :=
    let w := emit (console_error "Error starting recording:") w in
    emit (alert "Unable to access microphone. Please check permissions.") w in
  match mic with
  | denied => failed w
  | granted webm_supported =>
      let w := with_hook (Ref.audioChunksRef []) w in
      if webm_supported then
        let rec := length (Hook.recorders (hook w)) in
        let mediaRecorder :=
          {| MediaRecorder.state := RecordingState.inactive;
             MediaRecorder.tracks_live := true |} in
        let w := with_hook (Ref.recorders (Hook.recorders (hook w) ++ [mediaRecorder])) w in
        let w := with_hook (Ref.mediaRecorderRef (Some rec)) w in
        (* mediaRecorder.start(100) *)
        let w := emit (MediaRecorder_start rec 100) w in
        let w :=
          with_hook (fun h =>
            Ref.recorders
              (alter (fun r => {| MediaRecorder.state := RecordingState.recording;
                                  MediaRecorder.tracks_live := MediaRecorder.tracks_live r |})
                 rec (Hook.recorders h)) h) w in
        setRecording true w
      else failed w
  end.

Definition startRecording (mic : Microphone) (w : World) : World :=
  startRecording_resumed mic (startRecording_call w).

(** [mediaRecorder.stop()] *)
Definition MediaRecorder_stop_call (rec : nat) (w : World) : World :=
  let w := emit (MediaRecorder_stop rec) w in
  with_hook (fun h =>
    Ref.recorders
      (alter (fun r => {| MediaRecorder.state := RecordingState.inactive;
                          MediaRecorder.tracks_live := MediaRecorder.tracks_live r |})
         rec (Hook.recorders h)) h) w.

Definition stopRecording (w : World) : World :=
  match Hook.mediaRecorderRef (hook w) with
  | Some rec =>
      if VoiceStore.isRecording (store w) then
        let w := MediaRecorder_stop_call rec w in
        let w := setRecording false w in
        setProcessing true w
      else w
  | None => w
  end.

(** [toggleRecording] does not await [startRecording()]: the call returns
    where [startRecording] suspends, with the recording flag as it was, and
    [startRecording_resumed] runs when the browser answers. *)
Definition toggleRecording (w : World) : World :=
  if VoiceStore.isRecording (store w) then stopRecording w
  else startRecording_call w.

(** [mediaRecorder.ondataavailable] *)
Definition ondataavailable (data : string) (w : World) : World :=
  if decide (0 < String.length data)
  then with_hook (fun h => Ref.audioChunksRef (Hook.audioChunksRef h ++ [data]) h) w
  else w.

(** [stream.getTracks().forEach(track => track.stop())] for the stream of
    recorder [rec]. *)
Definition stop_tracks (rec : nat) (w : World) : World :=
  let w := emit (tracks_stop rec) w in
  with_hook (fun h =>
    Ref.recorders
      (alter (fun r => {| MediaRecorder.state := MediaRecorder.state r;
                          MediaRecorder.tracks_live := false |})
         rec (Hook.recorders h)) h) w.

(** [mediaRecorder.onstop] of recorder [rec]: the blob is the chunks joined;
    the tracks are stopped while [sendAudioToServer] is suspended, and the
    send goes on once the handler has returned. *)
Definition onstop (rec : nat) (w : World) : World :=
  let audioBlob := fold_right String.append "" (Hook.audioChunksRef (hook w)) in
  let '(w, suspended) := sendAudioToServer audioBlob w in
  let w := stop_tracks rec w in
  match suspended with
  | Some audioBlob => sendAudioToServer_resumed audioBlob w
  | None => w
  end.

(** *** Mounting *)

Definition mount (autoConnect : bool) (w : World) : World :=
  if autoConnect then connect w else w.

Definition unmount (w : World) : World :=
  match Hook.websocketRef (hook w) with
  | Some ws => WebSocket_close_call ws w
  | None => w
  end.

End VoiceChat.

(** ** Concrete inputs and the predicates of the statements *)

Definition demo_host : Host :=
  {| Date_now := fun _ => "1704103200000";
     Math_random := fun _ => "0.5";
     Date_toISOString := fun _ => "2024-01-01T10:00:00.000Z";
     atob := Some;
     btoa_fromCharCode := Some;
     JSON_parse := fun _ => SyntaxError;
     AudioContext_available := true |}.

(** The frames of a connection, handled one after the other. *)
Definition handle_all (host : Host) (frames : list string) (w : World) : World :=
  fold_left (fun w data => ws_onmessage host data w) frames w.

(** What [reset] leaves behind. *)
Definition reset_store (connectionStatus : ConnectionStatus.t) : VoiceStore.t :=
  Set_.connectionStatus connectionStatus initial_store.

(** A session showing an emergency and an error, with one message in the log. *)
Definition alarmed_store : VoiceStore.t :=
  Set_.urgencyLevel (Some Urgency.emergency)
    (Set_.error (Some "speech unintelligible") initial_store).

Definition alarmed_world : World :=
  {| store := alarmed_store; hook := initial_hook; tick := 0; trace := [] |}.

(** The response cut down to its error (and its timestamp). *)
Definition only_error (response : VoiceResponse.t) : VoiceResponse.t :=
  {| VoiceResponse.error := VoiceResponse.error response;
     VoiceResponse.timestamp := VoiceResponse.timestamp response;
     VoiceResponse.transcript := None;
     VoiceResponse.ai_response := None;
     VoiceResponse.audio_response := None;
     VoiceResponse.appointment_action := None |}.

(** From [w] to [w'] the error of [response] has been surfaced and nothing
    else of it looked at: the store differs in the processing flag (false),
    the session error (the error text) and the log (one more message, from
    the assistant, with the error text in it) and in no other key, so no
    intent, entities or playing flag moved; nothing was asked of the browser,
    so no audio was played; the hook is as it was. *)
Definition error_surfaced (response : VoiceResponse.t) (w w' : World) : Prop :=
  exists error m,
    VoiceResponse.error response = Some error
    /\ store w'
       = Set_.messages (VoiceStore.messages (store w) ++ [m])
           (Set_.error (Some error) (Set_.isProcessing false (store w)))
    /\ VoiceMessage.type m = MessageType.assistant
    /\ VoiceMessage.content m = "I'm sorry, there was an error: " +:+ error
    /\ trace w' = trace w
    /\ hook w' = hook w.

(** A backend error next to a transcript and assistant reply. *)
Definition error_among_others : VoiceResponse.t :=
  {| VoiceResponse.error := Some "speech unintelligible";
     VoiceResponse.timestamp := "2024-01-01T10:00:01Z";
     VoiceResponse.transcript := Some "book an appointment";
     VoiceResponse.ai_response :=
       Some {| AiResponse.text := "Sure, with which doctor?";
               AiResponse.intent := "book_appointment";
               AiResponse.extracted_info := Some {[ "doctor" := "Smith" ]} |};
     VoiceResponse.audio_response := Some "UklGRg==";
     VoiceResponse.appointment_action := None |}.

(** The error is there but empty, next to a transcript. *)
Definition empty_error_with_transcript : VoiceResponse.t :=
  {| VoiceResponse.error := Some "";
     VoiceResponse.timestamp := "2024-01-01T10:00:01Z";
     VoiceResponse.transcript := Some "book an appointment";
     VoiceResponse.ai_response := None;
     VoiceResponse.audio_response := None;
     VoiceResponse.appointment_action := None |}.

(** From [w] to [w'] the log has grown by exactly two messages: the user's,
    with the transcript, marked as audio; then the assistant's, with the
    reply's text, intent and entities, and [isAudio] as given. *)
Definition two_turns_appended (response : VoiceResponse.t) (isAudio : bool)
    (w w' : World) : Prop :=
  exists transcript ai user_turn assistant_turn,
    VoiceResponse.transcript response = Some transcript
    /\ VoiceResponse.ai_response response = Some ai
    /\ VoiceStore.messages (store w')
       = VoiceStore.messages (store w) ++ [user_turn; assistant_turn]
    /\ VoiceMessage.type user_turn = MessageType.user
    /\ VoiceMessage.content user_turn = transcript
    /\ VoiceMessage.isAudio user_turn = Some true
    /\ VoiceMessage.type assistant_turn = MessageType.assistant
    /\ VoiceMessage.content assistant_turn = AiResponse.text ai
    /\ VoiceMessage.isAudio assistant_turn = Some isAudio
    /\ VoiceMessage.intent assistant_turn = Some (AiResponse.intent ai)
    /\ VoiceMessage.entities assistant_turn = AiResponse.extracted_info ai.

(** The scenario of the specification. *)
Definition booking_response : VoiceResponse.t :=
  {| VoiceResponse.transcript := Some "book an appointment";
     VoiceResponse.ai_response :=
       Some {| AiResponse.text := "Sure, with which doctor?";
               AiResponse.intent := "book_appointment";
               AiResponse.extracted_info := Some ∅ |};
     VoiceResponse.timestamp := "2024-01-01T10:00:00Z";
     VoiceResponse.audio_response := None;
     VoiceResponse.error := None;
     VoiceResponse.appointment_action := None |}.

(** A transcript that is present but empty, next to a reply. *)
Definition empty_transcript_with_reply : VoiceResponse.t :=
  {| VoiceResponse.transcript := Some "";
     VoiceResponse.ai_response :=
       Some {| AiResponse.text := "Sorry, I did not catch that.";
               AiResponse.intent := "clarify";
               AiResponse.extracted_info := Some ∅ |};
     VoiceResponse.timestamp := "2024-01-01T10:00:00Z";
     VoiceResponse.audio_response := None;
     VoiceResponse.error := None;
     VoiceResponse.appointment_action := None |}.

(** After the step the session's entities are those of [ai] and nothing else:
    a key the reply does not carry is not in the session either, whatever the
    session held before. *)
Definition entities_replaced (ai : AiResponse.t) (w' : World) : Prop :=
  exists now : gmap string string,
    VoiceStore.extractedEntities (store w') = Some now
    /\ AiResponse.extracted_info ai = Some now
    /\ forall key,
         AiResponse.extracted_info ai ≫= (.!! key) = None -> now !! key = None.

(** A session that holds a date from an earlier reply. *)
Definition world_with_date : World :=
  updateExtractedEntities {[ "date" := "Monday" ]} initial_world.

Definition reply_with_doctor (text : string) : AiResponse.t :=
  {| AiResponse.text := text;
     AiResponse.intent := "book_appointment";
     AiResponse.extracted_info := Some {[ "doctor" := "Smith" ]} |}.

Definition response_with_doctor (text : string) : VoiceResponse.t :=
  {| VoiceResponse.transcript := None;
     VoiceResponse.ai_response := Some (reply_with_doctor text);
     VoiceResponse.timestamp := "2024-01-01T10:00:00Z";
     VoiceResponse.audio_response := None;
     VoiceResponse.error := None;
     VoiceResponse.appointment_action := None |}.

(** From [w] to [w'] the log has grown by a message of the assistant. *)
Definition failure_surfaced_as_turn (w w' : World) : Prop :=
  exists m,
    VoiceStore.messages (store w') = VoiceStore.messages (store w) ++ [m]
    /\ VoiceMessage.type m = MessageType.assistant.

(** The recorders that are recording. *)
Definition active_recorders (w : World) : list MediaRecorder.t :=
  filter (fun r => MediaRecorder.state r = RecordingState.recording)
    (Hook.recorders (hook w)).

(** A session in which one recording is running. *)
Definition recording_world : World := startRecording (granted true) initial_world.

(** ** The voice interface component, as far as it decides what the hook is
    asked *)

(** The frames the browser delivers to one recorder, in order. *)
Definition deliver_chunks (chunks : list string) (w : World) : World :=
  fold_left (fun w data => ondataavailable data w) chunks w.

(** [new Blob(chunks)] *)
Definition Blob (chunks : list string) : string := fold_right String.append "" chunks.

Module Permission.
Inductive t := granted | denied | prompt.
#[global] Instance eq_dec : EqDecision t.
Proof. solve_decision. Defined.
End Permission.

(** The component's own state ([useState]). *)
Module VoiceInterface.
Record t := mk {
  showSuggestions : bool;
  audioSupported : bool;
  microphonePermission : Permission.t
}.
End VoiceInterface.

(** [isConnected: connectionStatus === 'connected'], as the hook returns it. *)
Definition isConnected (w : World) : bool :=
  bool_decide (VoiceStore.connectionStatus (store w) = ConnectionStatus.connected).

Definition getConnectionStatusText (w : World) : string :=
  match VoiceStore.connectionStatus (store w) with
  | ConnectionStatus.connected => "Connected"
  | ConnectionStatus.connecting => "Connecting..."
  | ConnectionStatus.error => "Connection Error"
  | _ => "Disconnected"
  end.

Definition getConnectionStatusColor (w : World) : string :=
  match VoiceStore.connectionStatus (store w) with
  | ConnectionStatus.connected => "text-green-500"
  | ConnectionStatus.connecting => "text-yellow-500"
  | ConnectionStatus.error => "text-red-500"
  | _ => "text-gray-500"
  end.

Definition getUrgencyColor (w : World) : string :=
  match VoiceStore.urgencyLevel (store w) with
  | Some Urgency.emergency => "border-red-500 bg-red-50"
  | Some Urgency.high => "border-orange-500 bg-orange-50"
  | Some Urgency.medium => "border-yellow-500 bg-yellow-50"
  | _ => "border-blue-200 bg-blue-50"
  end.

Definition canRecord (c : VoiceInterface.t) (w : World) : bool :=
  isConnected w && VoiceInterface.audioSupported c
  && bool_decide (VoiceInterface.microphonePermission c <> Permission.denied).

Definition getRecordButtonMessage (c : VoiceInterface.t) (w : World) : string :=
  if negb (isConnected w) then "Not connected to server"
  else if negb (VoiceInterface.audioSupported c) then "Audio not supported in this browser"
  else if bool_decide (VoiceInterface.microphonePermission c = Permission.denied)
       then "Microphone access denied"
  else if VoiceStore.isProcessing (store w) then "Processing your request..."
  else if VoiceStore.isRecording (store w) then "Listening... Click to stop"
  else "Click to speak".

(** [disabled={!canRecord() || isProcessing}] of the record button. *)
Definition record_button_disabled (c : VoiceInterface.t) (w : World) : bool :=
  negb (canRecord c w) || VoiceStore.isProcessing (store w).

(** The reconnect button is rendered when [connectionStatus === 'error']. *)
Definition reconnect_button_shown (w : World) : bool :=
  bool_decide (VoiceStore.connectionStatus (store w) = ConnectionStatus.error).

(** A click on the record button: a disabled button does not call
    [onClick={toggleRecording}]. *)
Definition click_record (c : VoiceInterface.t) (w : World) : World :=
  if record_button_disabled c w then w else toggleRecording w.

(** A click on the reconnect button, when it is there. *)
Definition click_reconnect (w : World) : World :=
  if reconnect_button_shown w then resetConnection w else w.

(** ** The auth store ([useAuthStore]) and the role checks *)

Module UserRole.
Inductive t := ADMIN | DOCTOR | PATIENT | STAFF.
#[global] Instance eq_dec : EqDecision t.
Proof. solve_decision. Defined.
End UserRole.

Module User.
Record t := mk {
  id : string;
  user_id : string;
  email : string;
  role : UserRole.t;
  first_name : string;
  last_name : string;
  phone : option string;
  is_active : bool;
  is_verified : bool;
  last_login : option string;
  created_at : string;
  updated_at : string;
  doctor_id : option string;
  patient_id : option string;
  profile_picture : option string;
  department : option string
}.
End User.

(** [Partial<User>], and what the server answers to [PUT /api/auth/me]: a key
    is either absent or carries its new value. *)
Module PartialUser.
Record t := mk {
  id : option string;
  user_id : option string;
  email : option string;
  role : option UserRole.t;
  first_name : option string;
  last_name : option string;
  phone : option string;
  is_active : option bool;
  is_verified : option bool;
  last_login : option string;
  created_at : option string;
  updated_at : option string;
  doctor_id : option string;
  patient_id : option string;
  profile_picture : option string;
  department : option string
}.
End PartialUser.

Module LoginResponse.
Record t := mk {
  access_token : string;
  refresh_token : string;
  token_type : string;
  user : User.t
}.
End LoginResponse.

Module RegisterRequest.
Record t := mk {
  email : string;
  password : string;
  role : UserRole.t;
  first_name : string;
  last_name : string;
  phone : option string;
  department : option string
}.
End RegisterRequest.

Module AuthError.
Record t := mk {
  message : string;
  field : option string
}.
End AuthError.

Module AuthState.
Record t := mk {
  user : option User.t;
  accessToken : option string;
  refreshToken : option string;
  isAuthenticated : bool;
  isLoading : bool;
  error : option AuthError.t
}.
End AuthState.

Module Auth.

(** *** Role checks *)

Definition hasRole (user : option User.t) (roles : list UserRole.t) : bool :=
  match user with
  | None => false
  | Some user => bool_decide (User.role user ∈ roles)
  end.

Definition isAdmin (user : option User.t) : bool := hasRole user [UserRole.ADMIN].

Definition isDoctor (user : option User.t) : bool := hasRole user [UserRole.DOCTOR].

Definition isPatient (user : option User.t) : bool := hasRole user [UserRole.PATIENT].

Definition canAccessDoctorFeatures (user : option User.t) : bool :=
  hasRole user [UserRole.DOCTOR; UserRole.ADMIN].

Definition canAccessPatientFeatures (user : option User.t) : bool :=
  hasRole user [UserRole.PATIENT; UserRole.ADMIN].

Definition canAccessAdminFeatures (user : option User.t) : bool :=
  hasRole user [UserRole.ADMIN].

(** *** The side bar of the layout, which filters by [hasRole] *)

Record NavigationItem := {
  nav_id : string;
  label : string;
  path : string;
  roles : list UserRole.t
}.

Definition everyone : list UserRole.t :=
  [UserRole.ADMIN; UserRole.DOCTOR; UserRole.PATIENT; UserRole.STAFF].

Definition navigationItems (user : option User.t) : list NavigationItem :=
  let role := User.role <$> user in
  [ {| nav_id := "dashboard"; label := "Dashboard"; path := "/dashboard";
       roles := everyone |};
    {| nav_id := "voice"; label := "Voice Assistant"; path := "/voice";
       roles := everyone |};
    {| nav_id := "appointments"; label := "Appointments";
       path := if decide (role = Some UserRole.DOCTOR) then "/doctor/appointments"
               else if decide (role = Some UserRole.PATIENT) then "/patient/appointments"
               else "/appointments";
       roles := everyone |};
    {| nav_id := "patients"; label := "Patients";
       path := if decide (role = Some UserRole.DOCTOR) then "/doctor/patients"
               else "/patients";
       roles := [UserRole.ADMIN; UserRole.DOCTOR; UserRole.STAFF] |};
    {| nav_id := "doctors"; label := "Doctors"; path := "/doctors";
       roles := [UserRole.ADMIN; UserRole.PATIENT; UserRole.STAFF] |};
    {| nav_id := "admin-users"; label := "User Management"; path := "/admin/users";
       roles := [UserRole.ADMIN] |};
    {| nav_id := "admin-analytics"; label := "Analytics"; path := "/admin/analytics";
       roles := [UserRole.ADMIN] |} ].

Definition getFilteredNavigationItems (user : option User.t) : list NavigationItem :=
  filter (fun item => is_Some user /\ hasRole user (roles item) = true)
    (navigationItems user).

(** *** Requests *)

(** A JSON value other than [null]; where a value may be [null] it sits in
    an option.  A number carries what [String(n)] gives for it. *)
#[warnings="-register-all"]
Inductive Json :=
| JBool (b : bool)
| JNumber (rendering : string)
| JString (s : string)
| JArray (elements : list (option Json))
| JObject (members : list (string * option Json)).

(** JavaScript truthiness of a parsed value; [None] is [null] or
    [undefined]. *)
Definition Json_truthy (v : option Json) : bool :=
  match v with
  | None => false
  | Some (JBool b) => b
  | Some (JNumber rendering) => negb (String.eqb rendering "0")
  | Some (JString s) => negb (String.eqb s "")
  | Some (JArray _) | Some (JObject _) => true
  end.

(** [String(v)], which is what [new Error(v)] takes for its message: an
    array is its elements joined by commas, [null] elements counting as
    empty; an object is [[object Object]]. *)
Fixpoint ToString (v : Json) : string :=
  match v with
  | JBool true => "true"
  | JBool false => "false"
  | JNumber rendering => rendering
  | JString s => s
  | JArray elements =>
      (fix join (elements : list (option Json)) : string :=
         match elements with
         | [] => ""
         | element :: rest =>
             let first := match element with Some v => ToString v | None => "" end in
             match rest with
             | [] => first
             | _ :: _ => first +:+ "," +:+ join rest
             end
         end) elements
  | JObject _ => "[object Object]"
  end.

(** [v[key]] for a parsed value: the member of an object (the last one of
    that name, as [JSON.parse] keeps it), [undefined] on anything else. *)
Definition member (key : string) (v : Json) : option Json :=
  match v with
  | JObject members =>
      fold_left (fun found m => if decide (m.1 = key) then m.2 else found) members None
  | _ => None
  end.

(** The body of a response that is not ok, as [response.json()] gives it. *)
Inductive ErrorBody :=
| body_not_json
| body_null (TypeError_message : string)
| body_json (errorData : Json).

(** What [fetch] and the body reader make of one request whose success
    payload has type [A]. *)
Inductive Fetched (A : Type) :=
| fetch_rejected (message : string)
| not_ok (body : ErrorBody)
| ok_json (value : A)
| ok_not_json (message : string).
Arguments fetch_rejected {A} message.
Arguments not_ok {A} body.
Arguments ok_json {A} value.
Arguments ok_not_json {A} message.

(** What a [catch] may receive. *)
Inductive Thrown :=
| Error (message : string)
| not_an_Error.

(** [error instanceof Error ? error.message : fallback] *)
Definition message_or (fallback : string) (thrown : Thrown) : string :=
  match thrown with
  | Error msg => msg
  | not_an_Error => fallback
  end.

(** The headers [makeAuthenticatedRequest] sends:
    [{'Content-Type': 'application/json', ...(options.headers || {})}], then
    [Authorization] when the token is truthy. *)
Definition request_headers (options_headers : option (gmap string string))
    (token : option string) : gmap string string :=
  let headers : gmap string string :=
    default ∅ options_headers ∪ {[ "Content-Type" := "application/json" ]} in
  if truthy token
  then <[ "Authorization" := "Bearer " +:+ default "" token ]> headers
  else headers.

(** What [makeAuthenticatedRequest] returns or throws.  For a response that
    is not ok: a body that is not JSON makes the [catch] supply
    [{detail: 'An error occurred'}]; on [null] the read of [errorData.detail]
    throws a [TypeError], worded by the engine; otherwise the message is
    [errorData.detail || 'Request failed'] as [new Error] converts it. *)
Definition makeAuthenticatedRequest {A} (fetched : Fetched A) : A + Thrown :=
  match fetched with
  | fetch_rejected msg => inr (Error msg)
  | not_ok body_not_json => inr (Error "An error occurred")
  | not_ok (body_null TypeError_message) => inr (Error TypeError_message)
  | not_ok (body_json errorData) =>
      let detail := member "detail" errorData in
      inr (Error (if Json_truthy detail then from_option ToString "" detail
                  else "Request failed"))
  | ok_json value => inl value
  | ok_not_json msg => inr (Error msg)
  end.

(** The request an action hands to [fetch].  No action passes headers of its
    own. *)
Inductive Body :=
| login_body (email password : string)
| register_body (data : RegisterRequest.t)
| refresh_body (refresh_token : string)
| update_body (data : PartialUser.t)
| password_body (current_password new_password : string).

Record Request := {
  url : string;
  method : string;
  headers : gmap string string;
  body : option Body
}.

Section Requests.

Variable API_BASE_URL : string.

Definition request (path method : string) (body : option Body) (token : option string)
  : Request :=
  {| url := API_BASE_URL +:+ path; method := method;
     headers := request_headers None token; body := body |}.

Definition login_request (email password : string) : Request :=
  request "/api/auth/login" "POST" (Some (login_body email password)) None.

Definition register_request (data : RegisterRequest.t) : Request :=
  request "/api/auth/register" "POST" (Some (register_body data)) None.

(** The requests below are only made past the token check of their action. *)
Definition refresh_request (s : AuthState.t) : option Request :=
  if truthy (AuthState.refreshToken s)
  then Some (request "/api/auth/refresh" "POST"
               (Some (refresh_body (default "" (AuthState.refreshToken s)))) None)
  else None.

Definition updateUser_request (data : PartialUser.t) (s : AuthState.t) : option Request :=
  if truthy (AuthState.accessToken s)
  then Some (request "/api/auth/me" "PUT" (Some (update_body data))
               (AuthState.accessToken s))
  else None.

Definition changePassword_request (currentPassword newPassword : string)
    (s : AuthState.t) : option Request :=
  if truthy (AuthState.accessToken s)
  then Some (request "/api/auth/change-password" "POST"
               (Some (password_body currentPassword newPassword))
               (AuthState.accessToken s))
  else None.

Definition checkAuth_request (s : AuthState.t) : option Request :=
  if truthy (AuthState.accessToken s)
  then Some (request "/api/auth/me" "GET" None (AuthState.accessToken s))
  else None.

End Requests.

(** *** State *)

Definition initial : AuthState.t :=
  {| AuthState.user := None; AuthState.accessToken := None;
     AuthState.refreshToken := None; AuthState.isAuthenticated := false;
     AuthState.isLoading := false; AuthState.error := None |}.

Definition set_error (error : option AuthError.t) (s : AuthState.t) : AuthState.t :=
  {| AuthState.error := error;
     AuthState.user := AuthState.user s; AuthState.accessToken := AuthState.accessToken s;
     AuthState.refreshToken := AuthState.refreshToken s;
     AuthState.isAuthenticated := AuthState.isAuthenticated s;
     AuthState.isLoading := AuthState.isLoading s |}.

Definition set_isLoading (isLoading : bool) (s : AuthState.t) : AuthState.t :=
  {| AuthState.isLoading := isLoading;
     AuthState.user := AuthState.user s; AuthState.accessToken := AuthState.accessToken s;
     AuthState.refreshToken := AuthState.refreshToken s;
     AuthState.isAuthenticated := AuthState.isAuthenticated s;
     AuthState.error := AuthState.error s |}.

Definition failure (fallback : string) (thrown : Thrown) : AuthError.t :=
  {| AuthError.message := message_or fallback thrown; AuthError.field := None |}.

(** [{...state.user, ...response}] *)
Definition merge_user (user : User.t) (response : PartialUser.t) : User.t :=
  {| User.id := default (User.id user) (PartialUser.id response);
     User.user_id := default (User.user_id user) (PartialUser.user_id response);
     User.email := default (User.email user) (PartialUser.email response);
     User.role := default (User.role user) (PartialUser.role response);
     User.first_name := default (User.first_name user) (PartialUser.first_name response);
     User.last_name := default (User.last_name user) (PartialUser.last_name response);
     User.phone := from_option Some (User.phone user) (PartialUser.phone response);
     User.is_active := default (User.is_active user) (PartialUser.is_active response);
     User.is_verified := default (User.is_verified user) (PartialUser.is_verified response);
     User.last_login :=
       from_option Some (User.last_login user) (PartialUser.last_login response);
     User.created_at := default (User.created_at user) (PartialUser.created_at response);
     User.updated_at := default (User.updated_at user) (PartialUser.updated_at response);
     User.doctor_id :=
       from_option Some (User.doctor_id user) (PartialUser.doctor_id response);
     User.patient_id :=
       from_option Some (User.patient_id user) (PartialUser.patient_id response);
     User.profile_picture :=
       from_option Some (User.profile_picture user) (PartialUser.profile_picture response);
     User.department :=
       from_option Some (User.department user) (PartialUser.department response) |}.

(** *** Actions.  An action that awaits a request takes what that request
    comes to; it gives the state it leaves and what it throws, if anything. *)

Definition logout (s : AuthState.t) : AuthState.t :=
  {| AuthState.user := None; AuthState.accessToken := None;
     AuthState.refreshToken := None; AuthState.isAuthenticated := false;
     AuthState.error := None;
     AuthState.isLoading := AuthState.isLoading s |}.

Definition clearError : AuthState.t -> AuthState.t := set_error None.

Definition setLoading (loading : bool) : AuthState.t -> AuthState.t :=
  set_isLoading loading.

Definition login (fetched : Fetched LoginResponse.t) (s : AuthState.t)
  : AuthState.t * option Thrown :=
  let s := set_error None (set_isLoading true s) in
  match makeAuthenticatedRequest fetched with
  | inl response =>
      ({| AuthState.user := Some (LoginResponse.user response);
          AuthState.accessToken := Some (LoginResponse.access_token response);
          AuthState.refreshToken := Some (LoginResponse.refresh_token response);
          AuthState.isAuthenticated := true;
          AuthState.isLoading := false;
          AuthState.error := None |}, None)
  | inr thrown =>
      (set_isLoading false (set_error (Some (failure "Login failed" thrown)) s),
       Some thrown)
  end.

(** [register]: the registration request, then [login] with the same
    credentials; what [login] throws lands in the [catch] of [register]. *)
Definition register (registered : Fetched unit) (logged_in : Fetched LoginResponse.t)
    (s : AuthState.t) : AuthState.t * option Thrown :=
  let s := set_error None (set_isLoading true s) in
  let caught thrown s :=
    (set_isLoading false (set_error (Some (failure "Registration failed" thrown)) s),
     Some thrown) in
  match makeAuthenticatedRequest registered with
  | inl _ =>
      match login logged_in s with
      | (s, None) => (s, None)
      | (s, Some thrown) => caught thrown s
      end
  | inr thrown => caught thrown s
  end.

Definition refreshTokens (fetched : Fetched string) (s : AuthState.t)
  : AuthState.t * option Thrown :=
  if truthy (AuthState.refreshToken s) then
    match makeAuthenticatedRequest fetched with
    | inl access_token =>
        ({| AuthState.accessToken := Some access_token;
            AuthState.error := None;
            AuthState.user := AuthState.user s;
            AuthState.refreshToken := AuthState.refreshToken s;
            AuthState.isAuthenticated := AuthState.isAuthenticated s;
            AuthState.isLoading := AuthState.isLoading s |}, None)
    | inr thrown => (logout s, Some thrown)
    end
  else (logout s, Some (Error "No refresh token available")).

Definition updateUser (fetched : Fetched PartialUser.t) (s : AuthState.t)
  : AuthState.t * option Thrown :=
  let caught thrown :=
    (set_error (Some (failure "Update failed" thrown)) s, Some thrown) in
  if truthy (AuthState.accessToken s) then
    match makeAuthenticatedRequest fetched with
    | inl response =>
        ({| AuthState.user := (fun user => merge_user user response) <$> AuthState.user s;
            AuthState.accessToken := AuthState.accessToken s;
            AuthState.refreshToken := AuthState.refreshToken s;
            AuthState.isAuthenticated := AuthState.isAuthenticated s;
            AuthState.isLoading := AuthState.isLoading s;
            AuthState.error := AuthState.error s |}, None)
    | inr thrown => caught thrown
    end
  else caught (Error "Not authenticated").

Definition changePassword (fetched : Fetched unit) (s : AuthState.t)
  : AuthState.t * option Thrown :=
  let caught thrown :=
    (set_error (Some (failure "Password change failed" thrown)) s, Some thrown) in
  if truthy (AuthState.accessToken s) then
    match makeAuthenticatedRequest fetched with
    | inl _ => (set_error None s, None)
    | inr thrown => caught thrown
    end
  else caught (Error "Not authenticated").

(** [checkAuth].  Each round is what [GET /api/auth/me] comes to and, should
    that fail, what the refresh request comes to.  After a refresh that
    succeeds [checkAuth] calls itself; the result is [None] when the rounds
    given do not see the call through to its return. *)
Fixpoint checkAuth (rounds : list (Fetched User.t * Fetched string)) (s : AuthState.t)
  : option AuthState.t :=
  if truthy (AuthState.accessToken s) then
    match rounds with
    | [] => None
    | (me, refresh) :: rounds =>
        match makeAuthenticatedRequest me with
        | inl response =>
            Some {| AuthState.user := Some response;
                    AuthState.isAuthenticated := true;
                    AuthState.error := None;
                    AuthState.accessToken := AuthState.accessToken s;
                    AuthState.refreshToken := AuthState.refreshToken s;
                    AuthState.isLoading := AuthState.isLoading s |}
        | inr _ =>
            match refreshTokens refresh s with
            | (s, None) => checkAuth rounds s
            | (s, Some _) => Some (logout s)
            end
        end
    end
  else Some s.

(** [partialize]: what [persist] writes to storage. *)
Record Persisted := {
  persisted_user : option User.t;
  persisted_accessToken : option string;
  persisted_refreshToken : option string;
  persisted_isAuthenticated : bool
}.

Definition partialize (s : AuthState.t) : Persisted :=
  {| persisted_user := AuthState.user s;
     persisted_accessToken := AuthState.accessToken s;
     persisted_refreshToken := AuthState.refreshToken s;
     persisted_isAuthenticated := AuthState.isAuthenticated s |}.

(** The actions with what their requests come to. *)
Inductive Action :=
| Login (fetched : Fetched LoginResponse.t)
| Register (registered : Fetched unit) (logged_in : Fetched LoginResponse.t)
| Logout
| RefreshTokens (fetched : Fetched string)
| UpdateUser (fetched : Fetched PartialUser.t)
| ChangePassword (fetched : Fetched unit)
| ClearError
| SetLoading (loading : bool)
| CheckAuth (rounds : list (Fetched User.t * Fetched string)).

(** The state an action leaves, when it returns or throws. *)
Definition run (a : Action) (s : AuthState.t) : option AuthState.t :=
  match a with
  | Login fetched => Some (fst (login fetched s))
  | Register registered logged_in => Some (fst (register registered logged_in s))
  | Logout => Some (logout s)
  | RefreshTokens fetched => Some (fst (refreshTokens fetched s))
  | UpdateUser fetched => Some (fst (updateUser fetched s))
  | ChangePassword fetched => Some (fst (changePassword fetched s))
  | ClearError => Some (clearError s)
  | SetLoading loading => Some (setLoading loading s)
  | CheckAuth rounds => checkAuth rounds s
  end.

End Auth.

(** ** More concrete inputs *)

(** The demo host, with every frame decoding to [response]. *)
Definition host_decoding (response : VoiceResponse.t) : Host :=
  {| Date_now := Date_now demo_host; Math_random := Math_random demo_host;
     Date_toISOString := Date_toISOString demo_host;
     atob := atob demo_host; btoa_fromCharCode := btoa_fromCharCode demo_host;
     JSON_parse := fun _ => json_object response;
     AudioContext_available := true |}.

Definition spoken_reply : VoiceResponse.t :=
  {| VoiceResponse.transcript := Some "book an appointment";
     VoiceResponse.ai_response :=
       Some {| AiResponse.text := "Sure, with which doctor?";
               AiResponse.intent := "book_appointment";
               AiResponse.extracted_info := Some ∅ |};
     VoiceResponse.timestamp := "2024-01-01T10:00:00Z";
     VoiceResponse.audio_response := Some "UklGRg==";
     VoiceResponse.error := None;
     VoiceResponse.appointment_action := None |}.

Definition apiUrl_default : string := "ws://localhost:8000/api/voice/stream".

(** A session whose socket is open. *)
Definition connected_world : World :=
  deliver demo_host 0 open (connect apiUrl_default initial_world).

(** A session after a transport error, as the reconnect button finds it. *)
Definition failed_world : World := deliver demo_host 0 error connected_world.

Definition ready_interface : VoiceInterface.t :=
  {| VoiceInterface.showSuggestions := false; VoiceInterface.audioSupported := true;
     VoiceInterface.microphonePermission := Permission.granted |}.

(** After a transport error: reconnect, the timer fires, the new socket
    opens; the old socket has not reported its close yet. *)
Definition connect_then_opened : World :=
  deliver demo_host 1 open
    (resetConnection_timeout apiUrl_default (resetConnection failed_world)).

(** What storage holds for nobody. *)
Definition nobody : Auth.Persisted :=
  {| Auth.persisted_user := None; Auth.persisted_accessToken := None;
     Auth.persisted_refreshToken := None; Auth.persisted_isAuthenticated := false |}.

Definition dr_grey : User.t :=
  {| User.id := "u1"; User.user_id := "D-001"; User.email := "grey@example.org";
     User.role := UserRole.DOCTOR; User.first_name := "Meredith";
     User.last_name := "Grey"; User.phone := None; User.is_active := true;
     User.is_verified := true; User.last_login := None;
     User.created_at := "2024-01-01T00:00:00Z"; User.updated_at := "2024-01-01T00:00:00Z";
     User.doctor_id := Some "D-001"; User.patient_id := None;
     User.profile_picture := None; User.department := Some "Surgery" |}.

Definition grey_logs_in : Auth.Fetched LoginResponse.t :=
  Auth.ok_json
    {| LoginResponse.access_token := "access-1"; LoginResponse.refresh_token := "refresh-1";
       LoginResponse.token_type := "bearer"; LoginResponse.user := dr_grey |}.

Definition grey_session : AuthState.t := fst (Auth.login grey_logs_in Auth.initial).

Definition unauthorized {A} : Auth.Fetched A :=
  Auth.not_ok
    (Auth.body_json (Auth.JObject [("detail", Some (Auth.JString "Token expired"))])).


(** * Properties *)

(** ** Truthiness, and what a handler leaves in the store *)

Lemma truthy_Some s : truthy (Some s) = true <-> s <> "".
Proof. destruct s; simpl; split; congruence. Qed.

Lemma truthy_inv v : truthy v = true -> exists s, v = Some s /\ s <> "".
Proof.
  destruct v as [s|]; [|discriminate].
  intros H. exists s. split; [reflexivity | by apply truthy_Some].
Qed.

(** No action but [setProcessing] writes the processing flag, and
    [processVoiceResponse] calls it once, with [false]. *)
Lemma processVoiceResponse_isProcessing host response w :
  VoiceStore.isProcessing (store (processVoiceResponse host response w)) = false.
Proof.
  unfold processVoiceResponse, play_in_store.
  repeat case_match; reflexivity.
Qed.

Lemma ws_onmessage_isProcessing host data w :
  VoiceStore.isProcessing (store (ws_onmessage host data w)) = false.
Proof. unfold ws_onmessage. case_match; reflexivity. Qed.

Lemma ws_onerror_isProcessing w : VoiceStore.isProcessing (store (ws_onerror w)) = false.
Proof. reflexivity. Qed.

Lemma ws_onclose_isProcessing w : VoiceStore.isProcessing (store (ws_onclose w)) = false.
Proof. reflexivity. Qed.

(** ** The processing flag *)

(** C1.  Whatever has been received before, once a frame has been handled the
    processing flag is false: be it a response that decodes, with or without
    an error in it, or a payload [JSON.parse] rejects.  The same holds of
    [processVoiceResponse] taken alone, for every response. *)
Theorem processing_cleared_after_each_message (host : Host) :
  (forall response w,
      VoiceStore.isProcessing (store (processVoiceResponse host response w)) = false)
  /\ (forall frames data w,
      VoiceStore.isProcessing
        (store (ws_onmessage host data (handle_all host frames w))) = false).
Proof.
  split.
  - apply processVoiceResponse_isProcessing.
  - intros frames data w. apply ws_onmessage_isProcessing.
Qed.

(** ** Clearing and resetting *)

(** C8.  [clearMessages] leaves an empty log, no intent, no entities and no
    suggestions, and the connection status it found; the sockets and the rest
    of the hook are not touched either. *)
Theorem clearMessages_clears_log_keeps_connection (w : World) :
  VoiceStore.messages (store (clearMessages w)) = []
  /\ VoiceStore.currentIntent (store (clearMessages w)) = None
  /\ VoiceStore.extractedEntities (store (clearMessages w)) = None
  /\ VoiceStore.suggestions (store (clearMessages w)) = None
  /\ VoiceStore.connectionStatus (store (clearMessages w))
     = VoiceStore.connectionStatus (store w)
  /\ hook (clearMessages w) = hook w.
Proof. repeat split. Qed.

Lemma processVoiceResponse_urgencyLevel host response w :
  VoiceStore.urgencyLevel (store (processVoiceResponse host response w))
  = VoiceStore.urgencyLevel (store w).
Proof.
  unfold processVoiceResponse, play_in_store.
  repeat case_match; reflexivity.
Qed.

(** Only [updateUrgencyLevel] and [reset] write the urgency level. *)
Lemma dispatch_urgencyLevel host a w :
  VoiceStore.urgencyLevel (store (dispatch host a w))
  = match a with
    | UpdateUrgencyLevel level => Some level
    | Reset => None
    | _ => VoiceStore.urgencyLevel (store w)
    end.
Proof.
  destruct a; try reflexivity.
  apply processVoiceResponse_urgencyLevel.
Qed.

(** C10.  [clearMessages] keeps the urgency level and the session error as they
    were.  [reset] clears both, together with the log, transcript, intent,
    entities, suggestions and the three flags (the store is as at creation,
    but for the connection status).  And [reset] is the only action of the
    store after which an urgency level that was set is gone. *)
Theorem clearMessages_keeps_urgency_and_error (host : Host) :
  (forall w,
      VoiceStore.urgencyLevel (store (clearMessages w)) = VoiceStore.urgencyLevel (store w)
      /\ VoiceStore.error (store (clearMessages w)) = VoiceStore.error (store w))
  /\ (forall w,
      store (reset w) = reset_store (VoiceStore.connectionStatus (store w))
      /\ VoiceStore.urgencyLevel (store (reset w)) = None
      /\ VoiceStore.error (store (reset w)) = None)
  /\ (forall a w,
      is_Some (VoiceStore.urgencyLevel (store w)) ->
      VoiceStore.urgencyLevel (store (dispatch host a w)) = None ->
      a = Reset).
Proof.
  split; [|split].
  - intros w. split; reflexivity.
  - intros w. repeat split.
  - intros a w [level Hlevel] Hgone.
    rewrite dispatch_urgencyLevel in Hgone.
    destruct a; try reflexivity; congruence.
Qed.

Lemma clearMessages_keeps_urgency_and_error_witness :
  is_Some (VoiceStore.urgencyLevel (store alarmed_world))
  /\ VoiceStore.urgencyLevel (store (dispatch demo_host Reset alarmed_world)) = None
  /\ VoiceStore.urgencyLevel (store (clearMessages alarmed_world)) = Some Urgency.emergency
  /\ VoiceStore.error (store (clearMessages alarmed_world)) = Some "speech unintelligible"
  /\ VoiceStore.urgencyLevel (store (reset alarmed_world)) = None
  /\ Reset = Reset.
Proof.
  destruct (clearMessages_keeps_urgency_and_error demo_host) as (Hclear & Hreset & Honly).
  destruct (Hclear alarmed_world) as [Hu He].
  destruct (Hreset alarmed_world) as (_ & Hru & _).
  assert (Hset : is_Some (VoiceStore.urgencyLevel (store alarmed_world)))
    by (simpl; eauto).
  assert (Hgone : VoiceStore.urgencyLevel (store (dispatch demo_host Reset alarmed_world))
                  = None) by reflexivity.
  pose proof (Honly Reset alarmed_world Hset Hgone) as Hreset_only.
  exact (conj Hset (conj Hgone (conj Hu (conj He (conj Hru Hreset_only))))).
Defined.

(** ** Responses that carry an error *)

(** C2, amended.  When the error of a response is there and is not the empty
    string, [processVoiceResponse] surfaces it as [error_surfaced] says, and
    what else the response holds makes no difference to the outcome. *)
Theorem nonempty_error_surfaced_alone (host : Host) (response : VoiceResponse.t)
    (w : World) :
  truthy (VoiceResponse.error response) = true ->
  error_surfaced response w (processVoiceResponse host response w)
  /\ processVoiceResponse host response w
     = processVoiceResponse host (only_error response) w.
Proof.
  intros Htruthy.
  destruct (truthy_inv _ Htruthy) as (error & Herror & _).
  unfold processVoiceResponse. simpl. rewrite Htruthy, Herror. simpl.
  split; [|reflexivity].
  eexists error, _. repeat split. exact Herror.
Qed.

Lemma nonempty_error_surfaced_alone_witness :
  truthy (VoiceResponse.error error_among_others) = true
  /\ error_surfaced error_among_others initial_world
       (processVoiceResponse demo_host error_among_others initial_world).
Proof.
  split; [reflexivity|].
  apply (nonempty_error_surfaced_alone demo_host error_among_others initial_world).
  reflexivity.
Defined.

(** C2 as stated fails: an error that is present but empty is not surfaced.
    The session error ends up unset, and the one message appended is the
    user's transcript. *)
Lemma empty_error_not_surfaced :
  is_Some (VoiceResponse.error empty_error_with_transcript)
  /\ ~ error_surfaced empty_error_with_transcript initial_world
         (processVoiceResponse demo_host empty_error_with_transcript initial_world)
  /\ VoiceStore.error
       (store (processVoiceResponse demo_host empty_error_with_transcript initial_world))
     = None
  /\ VoiceMessage.type
     <$> VoiceStore.messages
           (store (processVoiceResponse demo_host empty_error_with_transcript
                     initial_world))
     = [MessageType.user].
Proof.
  split; [by eexists|]. split; [|split; reflexivity].
  intros (error & m & _ & Hstore & _).
  apply (f_equal VoiceStore.error) in Hstore. discriminate Hstore.
Qed.

(** The handler of the hook is another matter: it hands any non-empty
    [audio_response] to [playAudioResponse], error or not. *)
Example ws_onmessage_decodes_audio_next_to_error :
  let host :=
    {| Date_now := Date_now demo_host; Math_random := Math_random demo_host;
       Date_toISOString := Date_toISOString demo_host;
       atob := atob demo_host; btoa_fromCharCode := btoa_fromCharCode demo_host;
       JSON_parse := fun _ => json_object error_among_others;
       AudioContext_available := true |} in
  trace (ws_onmessage host "frame" initial_world) = [decodeAudioData "UklGRg=="].
Proof. reflexivity. Qed.

(** ** Responses that carry a transcript and a reply *)

(** Appending to the log commutes with whatever touches other keys only. *)
Lemma processVoiceResponse_messages host response w :
  truthy (VoiceResponse.error response) = false ->
  VoiceStore.messages (store (processVoiceResponse host response w))
  = VoiceStore.messages (store w)
    ++ (if truthy (VoiceResponse.transcript response)
        then [with_id ("msg_" +:+ Date_now host (tick w) +:+ "_"
                       +:+ Math_random host (S (tick w)))
                (user_message (default "" (VoiceResponse.transcript response))
                   (VoiceResponse.timestamp response))]
        else [])
    ++ match VoiceResponse.ai_response response with
       | Some ai =>
           if truthy (Some (AiResponse.text ai))
           then
             let t := if truthy (VoiceResponse.transcript response)
                      then S (S (tick w)) else tick w in
             [with_id ("msg_" +:+ Date_now host t +:+ "_" +:+ Math_random host (S t))
                (aiMessage response ai)]
           else []
       | None => []
       end.
Proof.
  intros Hno_error.
  unfold processVoiceResponse, play_in_store. rewrite Hno_error.
  repeat case_match; simpl; rewrite ?app_nil_r, <- ?app_assoc; reflexivity.
Qed.

(** C3, amended.  A response with no error to surface, a transcript that is not
    empty and a reply whose text is not empty appends exactly two messages,
    the user's and then the assistant's; the assistant's is marked as audio
    exactly when the response has an [audio_response] that is not empty. *)
Theorem transcript_and_reply_append_two_turns (host : Host)
    (response : VoiceResponse.t) (transcript : string) (ai : AiResponse.t)
    (w : World) :
  truthy (VoiceResponse.error response) = false ->
  VoiceResponse.transcript response = Some transcript ->
  transcript <> "" ->
  VoiceResponse.ai_response response = Some ai ->
  AiResponse.text ai <> "" ->
  two_turns_appended response (truthy (VoiceResponse.audio_response response))
    w (processVoiceResponse host response w).
Proof.
  intros Hno_error Htranscript Hnonempty Hai Htext.
  apply truthy_Some in Hnonempty, Htext.
  exists transcript, ai. eexists _, _.
  rewrite processVoiceResponse_messages by assumption.
  rewrite Htranscript, Hai, Hnonempty, Htext. simpl.
  repeat split; assumption.
Qed.

Lemma transcript_and_reply_append_two_turns_witness :
  two_turns_appended booking_response false
    initial_world (processVoiceResponse demo_host booking_response initial_world).
Proof.
  apply (transcript_and_reply_append_two_turns demo_host booking_response
           "book an appointment"
           {| AiResponse.text := "Sure, with which doctor?";
              AiResponse.intent := "book_appointment";
              AiResponse.extracted_info := Some ∅ |} initial_world);
    first [reflexivity | discriminate].
Defined.

Example booking_scenario :
  let w := processVoiceResponse demo_host booking_response initial_world in
  (fun m => (VoiceMessage.type m, VoiceMessage.content m))
    <$> VoiceStore.messages (store w)
  = [(MessageType.user, "book an appointment");
     (MessageType.assistant, "Sure, with which doctor?")]
  /\ VoiceStore.currentIntent (store w) = Some "book_appointment"
  /\ VoiceStore.extractedEntities (store w) = Some ∅.
Proof. repeat split. Qed.

(** C3 as stated fails: with the transcript present but empty, and the reply
    present, only the assistant's message is appended. *)
Lemma empty_transcript_appends_one_turn :
  VoiceResponse.error empty_transcript_with_reply = None
  /\ is_Some (VoiceResponse.transcript empty_transcript_with_reply)
  /\ is_Some (VoiceResponse.ai_response empty_transcript_with_reply)
  /\ ~ two_turns_appended empty_transcript_with_reply
         (bool_decide (is_Some (VoiceResponse.audio_response empty_transcript_with_reply)))
         initial_world
         (processVoiceResponse demo_host empty_transcript_with_reply initial_world)
  /\ VoiceMessage.type
     <$> VoiceStore.messages
           (store (processVoiceResponse demo_host empty_transcript_with_reply
                     initial_world))
     = [MessageType.assistant].
Proof.
  split; [reflexivity|]. split; [by eexists|]. split; [by eexists|].
  split; [|reflexivity].
  intros (transcript & ai & user_turn & assistant_turn & _ & _ & Hmessages & _).
  apply (f_equal length) in Hmessages. discriminate Hmessages.
Qed.

(** ** Intent and entities *)

(** What [processVoiceResponse] does to the two keys, in one equation each. *)
Lemma processVoiceResponse_extractedEntities host response w :
  truthy (VoiceResponse.error response) = false ->
  VoiceStore.extractedEntities (store (processVoiceResponse host response w))
  = match VoiceResponse.ai_response response with
    | Some ai =>
        if truthy (Some (AiResponse.text ai))
        then from_option Some (VoiceStore.extractedEntities (store w))
               (AiResponse.extracted_info ai)
        else VoiceStore.extractedEntities (store w)
    | None => VoiceStore.extractedEntities (store w)
    end.
Proof.
  intros Hno_error.
  unfold processVoiceResponse, play_in_store. rewrite Hno_error.
  repeat case_match; reflexivity.
Qed.

Lemma processVoiceResponse_currentIntent host response w :
  truthy (VoiceResponse.error response) = false ->
  VoiceStore.currentIntent (store (processVoiceResponse host response w))
  = match VoiceResponse.ai_response response with
    | Some ai =>
        if truthy (Some (AiResponse.text ai)) && truthy (Some (AiResponse.intent ai))
        then Some (AiResponse.intent ai)
        else VoiceStore.currentIntent (store w)
    | None => VoiceStore.currentIntent (store w)
    end.
Proof.
  intros Hno_error.
  unfold processVoiceResponse, play_in_store. rewrite Hno_error.
  repeat case_match; simpl in *; try reflexivity; congruence.
Qed.

(** C7, amended.  A reply with non-empty text that carries an entity set, in
    a response with no error to surface, replaces the session's entities by
    its own, whole. *)
Theorem reply_with_text_replaces_entities (host : Host) (response : VoiceResponse.t)
    (ai : AiResponse.t) (w : World) :
  truthy (VoiceResponse.error response) = false ->
  VoiceResponse.ai_response response = Some ai ->
  AiResponse.text ai <> "" ->
  is_Some (AiResponse.extracted_info ai) ->
  entities_replaced ai (processVoiceResponse host response w).
Proof.
  intros Hno_error Hai Htext [extracted_info Hinfo]. apply truthy_Some in Htext.
  exists extracted_info.
  rewrite processVoiceResponse_extractedEntities by assumption.
  rewrite Hai, Htext, Hinfo. simpl. auto.
Qed.

(** Without an entity set in the reply the guard of the update does not
    hold, and the session keeps the entities it had. *)
Lemma reply_without_entities_keeps_entities host response ai w :
  truthy (VoiceResponse.error response) = false ->
  VoiceResponse.ai_response response = Some ai ->
  AiResponse.extracted_info ai = None ->
  VoiceStore.extractedEntities (store (processVoiceResponse host response w))
  = VoiceStore.extractedEntities (store w).
Proof.
  intros Hno_error Hai Hinfo.
  rewrite processVoiceResponse_extractedEntities by assumption.
  rewrite Hai, Hinfo. by case_match.
Qed.

Lemma reply_with_text_replaces_entities_witness :
  entities_replaced (reply_with_doctor "With Dr Smith, then.")
    (processVoiceResponse demo_host (response_with_doctor "With Dr Smith, then.")
       world_with_date)
  /\ (world_with_date.(store).(VoiceStore.extractedEntities) ≫= (.!! "date"))
     = Some "Monday".
Proof.
  split; [|reflexivity].
  apply (reply_with_text_replaces_entities demo_host
           (response_with_doctor "With Dr Smith, then.")
           (reply_with_doctor "With Dr Smith, then.") world_with_date);
    first [reflexivity | discriminate | by eexists].
Defined.

(** C7 as stated fails: a reply that carries entities but an empty text leaves
    the session's entities as they were; the earlier date is still there and
    the reply's doctor is not. *)
Lemma empty_text_keeps_prior_entities :
  let w' := processVoiceResponse demo_host (response_with_doctor "") world_with_date in
  VoiceResponse.ai_response (response_with_doctor "") = Some (reply_with_doctor "")
  /\ is_Some (AiResponse.extracted_info (reply_with_doctor ""))
  /\ ~ entities_replaced (reply_with_doctor "") w'
  /\ VoiceStore.extractedEntities (store w') = Some {[ "date" := "Monday" ]}.
Proof.
  split; [reflexivity|]. split; [by eexists|]. split; [|reflexivity].
  intros (now & Hnow & Heq & _). rewrite <- Heq in Hnow.
  apply (f_equal (fun entities => entities ≫= (.!! "date"))) in Hnow.
  vm_compute in Hnow. discriminate Hnow.
Qed.

(** C9.  When a response has no error to surface and its reply is there with
    the empty string for text, no message of the assistant is appended (the
    log grows by the user's transcript message or by nothing), and the
    session keeps its intent and entities. *)
Theorem empty_reply_text_changes_nothing (host : Host) (response : VoiceResponse.t)
    (ai : AiResponse.t) (w : World) :
  truthy (VoiceResponse.error response) = false ->
  VoiceResponse.ai_response response = Some ai ->
  AiResponse.text ai = "" ->
  (exists appended,
      VoiceStore.messages (store (processVoiceResponse host response w))
      = VoiceStore.messages (store w) ++ appended
      /\ Forall (fun m => VoiceMessage.type m = MessageType.user) appended
      /\ length appended <= 1)
  /\ VoiceStore.currentIntent (store (processVoiceResponse host response w))
     = VoiceStore.currentIntent (store w)
  /\ VoiceStore.extractedEntities (store (processVoiceResponse host response w))
     = VoiceStore.extractedEntities (store w).
Proof.
  intros Hno_error Hai Htext.
  rewrite processVoiceResponse_messages, processVoiceResponse_currentIntent,
    processVoiceResponse_extractedEntities by assumption.
  rewrite Hai, Htext. simpl. rewrite app_nil_r.
  split; [|split; reflexivity].
  eexists. split; [reflexivity|].
  destruct (truthy (VoiceResponse.transcript response)); simpl.
  - split; [repeat constructor | lia].
  - split; [constructor | lia].
Qed.

Lemma empty_reply_text_changes_nothing_witness :
  let w' := processVoiceResponse demo_host (response_with_doctor "") world_with_date in
  VoiceStore.messages (store w') = []
  /\ VoiceStore.currentIntent (store w') = None
  /\ VoiceStore.currentIntent (store w')
     = VoiceStore.currentIntent (store world_with_date)
  /\ VoiceStore.extractedEntities (store w')
     = VoiceStore.extractedEntities (store world_with_date).
Proof.
  split; [reflexivity|]. split; [reflexivity|].
  apply (empty_reply_text_changes_nothing demo_host (response_with_doctor "")
           (reply_with_doctor "") world_with_date); reflexivity.
Defined.

(** ** Connecting *)

(** With the socket of the ref open, [connect] does nothing. *)
Lemma connect_open_noop apiUrl w :
  readyState (hook w) = Some ReadyState.OPEN -> connect apiUrl w = w.
Proof. intros Hopen. unfold connect. by rewrite decide_True. Qed.

(** In every other case it reports [connecting], builds a socket and points
    the ref at it. *)
Lemma connect_not_open apiUrl w :
  readyState (hook w) <> Some ReadyState.OPEN ->
  VoiceStore.connectionStatus (store (connect apiUrl w)) = ConnectionStatus.connecting
  /\ Hook.sockets (hook (connect apiUrl w))
     = Hook.sockets (hook w) ++ [ReadyState.CONNECTING]
  /\ Hook.websocketRef (hook (connect apiUrl w)) = Some (length (Hook.sockets (hook w)))
  /\ trace (connect apiUrl w) = trace w ++ [new_WebSocket apiUrl].
Proof. intros Hnot. unfold connect. rewrite decide_False by assumption. repeat split. Qed.

(** Once the browser reports a socket open, the status is [connected]. *)
Lemma deliver_open_connected host ws w :
  ws < length (Hook.sockets (hook w)) ->
  VoiceStore.connectionStatus (store (deliver host ws open w)) = ConnectionStatus.connected
  /\ Hook.sockets (hook (deliver host ws open w)) !! ws = Some ReadyState.OPEN.
Proof.
  intros Hws. unfold deliver.
  destruct (lookup_lt_is_Some_2 _ _ Hws) as [st Hst]. rewrite Hst. simpl.
  split; [reflexivity|]. by apply list_lookup_insert_eq.
Qed.

(** C4, on the code.  While the socket of the ref is still connecting, a call
    of [connect] is not a no-op: it builds a second socket next to the first,
    which stays as it is, and moves the ref to the new one. *)
Theorem connect_while_connecting_opens_second_socket (apiUrl : string) (w : World) :
  readyState (hook w) = Some ReadyState.CONNECTING ->
  exists ws,
    Hook.websocketRef (hook w) = Some ws
    /\ Hook.sockets (hook (connect apiUrl w))
       = Hook.sockets (hook w) ++ [ReadyState.CONNECTING]
    /\ Hook.sockets (hook (connect apiUrl w)) !! ws = Some ReadyState.CONNECTING
    /\ Hook.websocketRef (hook (connect apiUrl w)) = Some (length (Hook.sockets (hook w)))
    /\ ws <> length (Hook.sockets (hook w))
    /\ trace (connect apiUrl w) = trace w ++ [new_WebSocket apiUrl].
Proof.
  intros Hconnecting.
  destruct (connect_not_open apiUrl w) as (_ & Hsockets & Href & Htrace);
    [congruence|].
  unfold readyState in Hconnecting.
  destruct (Hook.websocketRef (hook w)) as [ws|] eqn:Hws; [|discriminate].
  simpl in Hconnecting.
  exists ws. rewrite Hsockets.
  pose proof (lookup_lt_Some _ _ _ Hconnecting) as Hlt.
  repeat split; try assumption.
  - by rewrite lookup_app_l.
  - lia.
Qed.

Lemma connect_while_connecting_opens_second_socket_witness :
  let apiUrl := "ws://localhost:8000/api/voice/stream" in
  let w := connect apiUrl initial_world in
  VoiceStore.connectionStatus (store w) = ConnectionStatus.connecting
  /\ readyState (hook w) = Some ReadyState.CONNECTING
  /\ Hook.sockets (hook (connect apiUrl w))
     = [ReadyState.CONNECTING; ReadyState.CONNECTING]
  /\ trace (connect apiUrl w) = [new_WebSocket apiUrl; new_WebSocket apiUrl].
Proof.
  intros apiUrl w.
  destruct (connect_while_connecting_opens_second_socket apiUrl w)
    as (ws & _ & Hsockets & _ & _ & _ & Htrace); [reflexivity|].
  split; [reflexivity|]. split; [reflexivity|].
  split; [exact Hsockets | exact Htrace].
Defined.

(** ** Sending while the socket is not open *)

(** C5, amended.  With no open socket behind the ref, [sendAudioToServer]
    returns at once, without going on to encode and send: it logs
    [WebSocket not connected] on the console and clears the processing flag,
    and that is all; log and session error are as they were.  So the
    [onstop] of a recorder sends nothing either. *)
Theorem send_while_not_open_logged_only (host : Host) (audioBlob : string)
    (rec : nat) (w : World) :
  readyState (hook w) <> Some ReadyState.OPEN ->
  snd (sendAudioToServer audioBlob w) = None
  /\ store (fst (sendAudioToServer audioBlob w)) = Set_.isProcessing false (store w)
  /\ trace (fst (sendAudioToServer audioBlob w))
     = trace w ++ [console_error "WebSocket not connected"]
  /\ hook (fst (sendAudioToServer audioBlob w)) = hook w
  /\ store (onstop host rec w) = Set_.isProcessing false (store w)
  /\ trace (onstop host rec w)
     = trace w ++ [console_error "WebSocket not connected"; tracks_stop rec].
Proof.
  intros Hnot_open. unfold onstop, sendAudioToServer.
  rewrite !decide_False by assumption. simpl.
  repeat split. by rewrite <- app_assoc.
Qed.

Lemma send_while_not_open_logged_only_witness :
  readyState (hook initial_world) <> Some ReadyState.OPEN
  /\ snd (sendAudioToServer "RIFF" initial_world) = None
  /\ VoiceStore.messages (store (fst (sendAudioToServer "RIFF" initial_world))) = []
  /\ trace (onstop demo_host 0 initial_world)
     = [console_error "WebSocket not connected"; tracks_stop 0].
Proof.
  assert (Hnot_open : readyState (hook initial_world) <> Some ReadyState.OPEN)
    by discriminate.
  destruct (send_while_not_open_logged_only demo_host "RIFF" 0 initial_world Hnot_open)
    as (Hreturned & Hstore & _ & _ & _ & Htrace).
  split; [exact Hnot_open|]. split; [exact Hreturned|].
  split; [by rewrite Hstore | exact Htrace].
Defined.

(** C5 as stated fails: a send with no socket at all appends nothing to the
    log, and leaves the session error unset. *)
Lemma send_while_not_open_appends_no_turn :
  let w' := fst (sendAudioToServer "RIFF" initial_world) in
  readyState (hook initial_world) <> Some ReadyState.OPEN
  /\ ~ failure_surfaced_as_turn initial_world w'
  /\ VoiceStore.messages (store w') = []
  /\ VoiceStore.error (store w') = None.
Proof.
  split; [discriminate|]. split; [|split; reflexivity].
  intros (m & Hmessages & _).
  apply (f_equal length) in Hmessages. discriminate Hmessages.
Qed.

(** ** Recording *)

Lemma stopRecording_idle_noop w :
  VoiceStore.isRecording (store w) = false -> stopRecording w = w.
Proof. intros Hidle. unfold stopRecording. rewrite Hidle. by case_match. Qed.

Lemma alter_snoc {A} (f : A -> A) (l : list A) (x : A) :
  alter f (length l) (l ++ [x]) = l ++ [f x].
Proof.
  replace (length l) with (length l + 0) by lia. by rewrite alter_app_r.
Qed.

(** What a granted microphone leaves behind, from the moment the browser
    answers. *)
Lemma startRecording_resumed_granted (w : World) :
  let rec := length (Hook.recorders (hook w)) in
  let w' := startRecording_resumed (granted true) w in
  store w' = Set_.isRecording true (store w)
  /\ trace w' = trace w ++ [MediaRecorder_start rec 100]
  /\ Hook.recorders (hook w')
     = Hook.recorders (hook w)
       ++ [{| MediaRecorder.state := RecordingState.recording;
              MediaRecorder.tracks_live := true |}]
  /\ Hook.mediaRecorderRef (hook w') = Some rec
  /\ Hook.audioChunksRef (hook w') = []
  /\ Hook.websocketRef (hook w') = Hook.websocketRef (hook w)
  /\ Hook.sockets (hook w') = Hook.sockets (hook w).
Proof.
  unfold startRecording_resumed. simpl.
  rewrite alter_snoc. repeat split.
Qed.

(** The same for the whole call, when nothing comes between the request and
    the browser's answer. *)
Lemma startRecording_granted (w : World) :
  let rec := length (Hook.recorders (hook w)) in
  let w' := startRecording (granted true) w in
  store w' = Set_.isRecording true (store w)
  /\ trace w' = trace w ++ [getUserMedia; MediaRecorder_start rec 100]
  /\ Hook.recorders (hook w')
     = Hook.recorders (hook w)
       ++ [{| MediaRecorder.state := RecordingState.recording;
              MediaRecorder.tracks_live := true |}]
  /\ Hook.mediaRecorderRef (hook w') = Some rec
  /\ Hook.audioChunksRef (hook w') = []
  /\ Hook.websocketRef (hook w') = Hook.websocketRef (hook w)
  /\ Hook.sockets (hook w') = Hook.sockets (hook w).
Proof.
  destruct (startRecording_resumed_granted (startRecording_call w))
    as (Hstore & Htrace & Hrecs & Href & Hchunks & Hws & Hsockets).
  unfold startRecording. cbv zeta.
  rewrite Hstore, Htrace, Hrecs, Href, Hchunks, Hws, Hsockets.
  unfold startRecording_call. simpl. rewrite <- app_assoc. repeat split.
Qed.

Lemma active_recorders_snoc (w w' : World) :
  Hook.recorders (hook w')
  = Hook.recorders (hook w)
    ++ [{| MediaRecorder.state := RecordingState.recording;
           MediaRecorder.tracks_live := true |}] ->
  active_recorders w'
  = active_recorders w
    ++ [{| MediaRecorder.state := RecordingState.recording;
           MediaRecorder.tracks_live := true |}].
Proof.
  intros Hrecs. unfold active_recorders. rewrite Hrecs, filter_app.
  by rewrite filter_cons_True, filter_nil by reflexivity.
Qed.

(** With the recording flag up, [toggleRecording] is [stopRecording]: it asks
    for no microphone and builds no recorder, it stops the one of the ref (if
    any) and nothing else. *)
Lemma toggleRecording_while_recording_stops (w : World) :
  VoiceStore.isRecording (store w) = true ->
  toggleRecording w = stopRecording w
  /\ length (Hook.recorders (hook (toggleRecording w)))
     = length (Hook.recorders (hook w))
  /\ trace (toggleRecording w)
     = trace w ++ match Hook.mediaRecorderRef (hook w) with
                  | Some rec => [MediaRecorder_stop rec]
                  | None => []
                  end.
Proof.
  intros Hrecording. unfold toggleRecording, stopRecording. rewrite Hrecording.
  split; [reflexivity|].
  destruct (Hook.mediaRecorderRef (hook w)) as [rec|]; simpl.
  - split; [apply length_alter | reflexivity].
  - split; [reflexivity | by rewrite app_nil_r].
Qed.

(** C6, on the code.  [startRecording] looks at no flag.  Called while the
    recording flag is up, with the microphone granted, it is no no-op: it
    asks for the microphone again and starts one more recorder; every
    recorder that was recording goes on recording, and the ref moves to the
    new one, so that the earlier recorder can no longer be stopped through
    it. *)
Theorem startRecording_while_recording_starts_another (w : World) :
  VoiceStore.isRecording (store w) = true ->
  let w' := startRecording (granted true) w in
  active_recorders w'
  = active_recorders w
    ++ [{| MediaRecorder.state := RecordingState.recording;
           MediaRecorder.tracks_live := true |}]
  /\ Hook.mediaRecorderRef (hook w') = Some (length (Hook.recorders (hook w)))
  /\ trace w'
     = trace w
       ++ [getUserMedia; MediaRecorder_start (length (Hook.recorders (hook w))) 100]
  /\ VoiceStore.isRecording (store w') = true.
Proof.
  intros Hrecording w'.
  destruct (startRecording_granted w) as (Hstore & Htrace & Hrecs & Href & _).
  fold w' in Hstore, Htrace, Hrecs, Href.
  split; [by apply active_recorders_snoc|].
  split; [exact Href|]. split; [exact Htrace|]. by rewrite Hstore.
Qed.

Lemma startRecording_while_recording_starts_another_witness :
  VoiceStore.isRecording (store recording_world) = true
  /\ length (active_recorders recording_world) = 1
  /\ length (active_recorders (startRecording (granted true) recording_world)) = 2
  /\ Hook.mediaRecorderRef (hook (startRecording (granted true) recording_world))
     = Some 1.
Proof.
  assert (Hrecording : VoiceStore.isRecording (store recording_world) = true)
    by reflexivity.
  destruct (startRecording_while_recording_starts_another recording_world Hrecording)
    as (Hactive & Href & _).
  split; [exact Hrecording|]. split; [reflexivity|].
  split; [by rewrite Hactive | exact Href].
Defined.

(** The same session step by step: one recording is running, a second
    [startRecording] is not a no-op, and two recorders end up recording. *)
Example startRecording_while_recording_starts_second :
  let w' := startRecording (granted true) recording_world in
  VoiceStore.isRecording (store recording_world) = true
  /\ length (active_recorders recording_world) = 1
  /\ startRecording_call recording_world <> recording_world
  /\ w' <> recording_world
  /\ length (active_recorders w') = 2
  /\ Hook.mediaRecorderRef (hook w') = Some 1
  /\ trace w'
     = [getUserMedia; MediaRecorder_start 0 100; getUserMedia; MediaRecorder_start 1 100].
Proof.
  split; [reflexivity|]. split; [reflexivity|].
  split; [intros H; apply (f_equal trace) in H; discriminate H|].
  split; [intros H; apply (f_equal trace) in H; discriminate H|].
  repeat split.
Qed.

(** The record button gets there too.  Two clicks in direct succession both
    find the recording flag down, because the first [startRecording] is
    still waiting for the microphone; once both requests are granted two
    recorders are recording and one stop reaches only the second. *)
Example toggles_before_grant_start_two_captures :
  let clicked := toggleRecording (toggleRecording initial_world) in
  let w' :=
    startRecording_resumed (granted true)
      (startRecording_resumed (granted true) clicked) in
  trace clicked = [getUserMedia; getUserMedia]
  /\ VoiceStore.isRecording (store clicked) = false
  /\ length (active_recorders w') = 2
  /\ length (active_recorders (stopRecording w')) = 1.
Proof. repeat split. Qed.

(** ** More on the voice store *)

(** The log only grows under [processVoiceResponse], by two messages at most:
    what was there stays where it was, and an error response adds exactly one
    message. *)
Theorem processVoiceResponse_appends_at_most_two (host : Host)
    (response : VoiceResponse.t) (w : World) :
  exists appended,
    VoiceStore.messages (store (processVoiceResponse host response w))
    = VoiceStore.messages (store w) ++ appended
    /\ length appended <= 2
    /\ length appended
       = if truthy (VoiceResponse.error response) then 1
         else (if truthy (VoiceResponse.transcript response) then 1 else 0)
              + match VoiceResponse.ai_response response with
                | Some ai => if truthy (Some (AiResponse.text ai)) then 1 else 0
                | None => 0
                end.
Proof.
  destruct (truthy (VoiceResponse.error response)) eqn:Herror.
  - unfold processVoiceResponse. rewrite Herror. simpl.
    eexists [_]. repeat split. simpl. lia.
  - rewrite processVoiceResponse_messages by assumption.
    eexists. split; [reflexivity|].
    destruct (truthy (VoiceResponse.transcript response));
      destruct (VoiceResponse.ai_response response) as [ai|];
      try destruct (truthy (Some (AiResponse.text ai)));
      simpl; split; lia.
Qed.

(** What [processVoiceResponse] never writes. *)
Lemma processVoiceResponse_untouched host response w :
  VoiceStore.isRecording (store (processVoiceResponse host response w))
  = VoiceStore.isRecording (store w)
  /\ VoiceStore.connectionStatus (store (processVoiceResponse host response w))
     = VoiceStore.connectionStatus (store w)
  /\ VoiceStore.currentTranscript (store (processVoiceResponse host response w))
     = VoiceStore.currentTranscript (store w)
  /\ VoiceStore.suggestions (store (processVoiceResponse host response w))
     = VoiceStore.suggestions (store w)
  /\ hook (processVoiceResponse host response w) = hook w.
Proof.
  unfold processVoiceResponse, play_in_store.
  repeat case_match; repeat split.
Qed.

(** [processVoiceResponse] keeps its hands off the recording flag, the
    connection status, the live transcript, the suggestions and the urgency
    level, and off every ref of the hook, whatever the response. *)
Theorem processVoiceResponse_frame (host : Host) (response : VoiceResponse.t)
    (w : World) :
  let w' := processVoiceResponse host response w in
  VoiceStore.isRecording (store w') = VoiceStore.isRecording (store w)
  /\ VoiceStore.connectionStatus (store w') = VoiceStore.connectionStatus (store w)
  /\ VoiceStore.currentTranscript (store w') = VoiceStore.currentTranscript (store w)
  /\ VoiceStore.suggestions (store w') = VoiceStore.suggestions (store w)
  /\ VoiceStore.urgencyLevel (store w') = VoiceStore.urgencyLevel (store w)
  /\ hook w' = hook w.
Proof.
  destruct (processVoiceResponse_untouched host response w) as (? & ? & ? & ? & ?).
  pose proof (processVoiceResponse_urgencyLevel host response w).
  repeat split; assumption.
Qed.

(** A frame, whatever it decodes to, changes neither the connection status
    nor any socket or recorder, nor the chunks recorded so far. *)
Theorem ws_onmessage_leaves_connection_alone (host : Host) (data : string)
    (w : World) :
  let w' := ws_onmessage host data w in
  VoiceStore.connectionStatus (store w') = VoiceStore.connectionStatus (store w)
  /\ VoiceStore.isRecording (store w') = VoiceStore.isRecording (store w)
  /\ Hook.sockets (hook w') = Hook.sockets (hook w)
  /\ Hook.websocketRef (hook w') = Hook.websocketRef (hook w)
  /\ Hook.recorders (hook w') = Hook.recorders (hook w)
  /\ Hook.mediaRecorderRef (hook w') = Hook.mediaRecorderRef (hook w)
  /\ Hook.audioChunksRef (hook w') = Hook.audioChunksRef (hook w).
Proof.
  unfold ws_onmessage. destruct (JSON_parse host data) as [| |response];
    [repeat split..|].
  destruct (processVoiceResponse_untouched host response w)
    as (Hrec & Hstatus & _ & _ & Hhook).
  unfold playAudioResponse.
  repeat case_match; simpl; rewrite ?Hrec, ?Hstatus, ?Hhook; repeat split.
Qed.

(** A response with no error to surface wipes the session error left by an
    earlier one. *)
Theorem good_response_clears_session_error (host : Host) (response : VoiceResponse.t)
    (w : World) :
  truthy (VoiceResponse.error response) = false ->
  VoiceStore.error (store (processVoiceResponse host response w)) = None.
Proof.
  intros Hno_error. unfold processVoiceResponse, play_in_store. rewrite Hno_error.
  repeat case_match; reflexivity.
Qed.

Lemma good_response_clears_session_error_witness :
  VoiceStore.error (store alarmed_world) = Some "speech unintelligible"
  /\ VoiceStore.error (store (processVoiceResponse demo_host booking_response alarmed_world))
     = None.
Proof.
  split; [reflexivity|].
  apply (good_response_clears_session_error demo_host booking_response alarmed_world).
  reflexivity.
Defined.

(** A reply with text but an empty intent: the assistant's message is
    appended, carrying the empty intent, and the entities are replaced when
    the reply carries any (kept when it carries none), yet the session keeps
    the intent it had. *)
Theorem empty_intent_keeps_current_intent (host : Host) (response : VoiceResponse.t)
    (ai : AiResponse.t) (w : World) :
  truthy (VoiceResponse.error response) = false ->
  VoiceResponse.ai_response response = Some ai ->
  AiResponse.text ai <> "" ->
  AiResponse.intent ai = "" ->
  let w' := processVoiceResponse host response w in
  VoiceStore.currentIntent (store w') = VoiceStore.currentIntent (store w)
  /\ VoiceStore.extractedEntities (store w')
     = match AiResponse.extracted_info ai with
       | Some extracted_info => Some extracted_info
       | None => VoiceStore.extractedEntities (store w)
       end
  /\ VoiceMessage.intent <$> last (VoiceStore.messages (store w')) = Some (Some "").
Proof.
  intros Hno_error Hai Htext Hintent w'. subst w'.
  apply truthy_Some in Htext.
  rewrite processVoiceResponse_currentIntent, processVoiceResponse_extractedEntities,
    processVoiceResponse_messages by assumption.
  rewrite Hai, Htext, Hintent. simpl.
  split; [reflexivity|]. split; [reflexivity|].
  rewrite app_assoc, last_snoc. simpl. by rewrite Hintent.
Qed.

Lemma empty_intent_keeps_current_intent_witness :
  let w := updateCurrentIntent "book_appointment" initial_world in
  let ai := {| AiResponse.text := "Anything else?"; AiResponse.intent := "";
               AiResponse.extracted_info := Some ∅ |} in
  let response :=
    {| VoiceResponse.transcript := None; VoiceResponse.ai_response := Some ai;
       VoiceResponse.audio_response := None;
       VoiceResponse.timestamp := "2024-01-01T10:00:02Z";
       VoiceResponse.error := None; VoiceResponse.appointment_action := None |} in
  VoiceStore.currentIntent (store (processVoiceResponse demo_host response w))
  = Some "book_appointment".
Proof.
  intros w ai response.
  destruct (empty_intent_keeps_current_intent demo_host response ai w) as (Hintent & _);
    first [reflexivity | discriminate | exact Hintent].
Defined.

(** The store starts a playback for a response exactly when the response has
    no error to surface and its audio is not empty and decodes as base64; then
    the playing flag goes up and the audio is handed to the player.  In every
    other case the playing flag is as it was; audio that does not decode is
    logged and nothing is played. *)
Theorem store_playback_started_iff (host : Host) (response : VoiceResponse.t)
    (w : World) :
  let w' := processVoiceResponse host response w in
  let audio := default "" (VoiceResponse.audio_response response) in
  let started :=
    negb (truthy (VoiceResponse.error response))
    && truthy (VoiceResponse.audio_response response)
    && bool_decide (is_Some (atob host audio)) in
  VoiceStore.isPlaying (store w')
  = (if started then true else VoiceStore.isPlaying (store w))
  /\ (Audio_play audio ∈ trace w' <-> started = true \/ Audio_play audio ∈ trace w).
Proof.
  unfold processVoiceResponse, play_in_store.
  destruct (truthy (VoiceResponse.error response)); simpl.
  { split; [reflexivity|]. intuition discriminate. }
  destruct (VoiceResponse.audio_response response) as [audio|]; simpl.
  2: { split; [repeat case_match; reflexivity|].
       repeat case_match; simpl; rewrite ?elem_of_app, ?list_elem_of_singleton;
         intuition discriminate. }
  destruct audio as [|c audio]; simpl.
  { split; [repeat case_match; reflexivity|].
    repeat case_match; simpl; rewrite ?elem_of_app, ?list_elem_of_singleton;
      intuition discriminate. }
  destruct (atob host (String c audio)) as [decoded|]; simpl.
  - split; [repeat case_match; reflexivity|].
    repeat case_match; simpl; rewrite ?elem_of_app, ?list_elem_of_singleton;
      intuition.
  - split; [repeat case_match; reflexivity|].
    repeat case_match; simpl; rewrite ?elem_of_app, ?list_elem_of_singleton;
      intuition discriminate.
Qed.

(** The hook's handler hands every non-empty audio of a decoded response to
    its own player, whether the response carries an error or not.  So the
    audio of a good response is started twice, once by the store and once by
    the hook, and the audio next to an error is still played. *)
Theorem ws_onmessage_plays_audio_itself (host : Host) (data audio : string)
    (response : VoiceResponse.t) (w : World) :
  JSON_parse host data = json_object response ->
  VoiceResponse.audio_response response = Some audio ->
  audio <> "" ->
  is_Some (atob host audio) ->
  AudioContext_available host = true ->
  trace (ws_onmessage host data w)
  = trace w
    ++ (if truthy (VoiceResponse.error response) then []
        else Audio_play audio
             :: match VoiceResponse.appointment_action response with
                | Some _ => [console_log "Appointment action:"]
                | None => []
                end)
    ++ [decodeAudioData audio].
Proof.
  intros Hparse Haudio Hnonempty [decoded Hdecoded] Hcontext.
  apply truthy_Some in Hnonempty.
  unfold ws_onmessage. rewrite Hparse, Haudio, Hnonempty.
  unfold playAudioResponse. rewrite Hcontext, andb_false_r, Hdecoded.
  unfold processVoiceResponse, play_in_store. rewrite Haudio, Hnonempty, Hdecoded.
  repeat case_match; simpl; rewrite <- ?app_assoc; reflexivity.
Qed.

Lemma ws_onmessage_plays_audio_itself_witness :
  trace (ws_onmessage (host_decoding spoken_reply) "frame" initial_world)
  = [Audio_play "UklGRg=="; decodeAudioData "UklGRg=="]
  /\ trace (ws_onmessage (host_decoding error_among_others) "frame" initial_world)
     = [decodeAudioData "UklGRg=="].
Proof.
  split.
  - apply (ws_onmessage_plays_audio_itself (host_decoding spoken_reply) "frame"
             "UklGRg==" spoken_reply initial_world);
      first [reflexivity | discriminate | by eexists].
  - apply (ws_onmessage_plays_audio_itself (host_decoding error_among_others) "frame"
             "UklGRg==" error_among_others initial_world);
      first [reflexivity | discriminate | by eexists].
Defined.

(** [updateLastMessage] patches the last message and nothing else: the log
    keeps its length and all messages but the last; on an empty log it does
    nothing at all. *)
Theorem updateLastMessage_patches_last_only (updates : PartialMessage.t) (w : World) :
  let before := VoiceStore.messages (store w) in
  let after := VoiceStore.messages (store (updateLastMessage updates w)) in
  length after = length before
  /\ take (length before - 1) after = take (length before - 1) before
  /\ last after = (fun m => patch m updates) <$> last before
  /\ (before = [] -> updateLastMessage updates w = w).
Proof.
  destruct w as [[rec proc play messages tr cs ci ee sg ul er] h t tc]. simpl.
  destruct messages as [|m messages _] using rev_ind; simpl.
  { repeat split. }
  rewrite decide_True by (rewrite length_app; simpl; lia).
  rewrite length_app. simpl.
  replace (length messages + 1 - 1) with (length messages + 0) by lia.
  rewrite alter_app_r. simpl.
  rewrite !length_app, !take_app_length', !last_snoc by lia. simpl.
  repeat split. intros Hnil. destruct messages; discriminate Hnil.
Qed.

(** ** More on the connection *)


(** From any state whose socket is not open: [connect], then the browser
    reporting the new socket open, leaves the session connected on an open
    socket, and from there on [connect] does nothing. *)
Theorem connect_then_open_is_connected (host : Host) (apiUrl : string) (w : World) :
  readyState (hook w) <> Some ReadyState.OPEN ->
  let ws := length (Hook.sockets (hook w)) in
  let w' := deliver host ws open (connect apiUrl w) in
  VoiceStore.connectionStatus (store w') = ConnectionStatus.connected
  /\ Hook.websocketRef (hook w') = Some ws
  /\ readyState (hook w') = Some ReadyState.OPEN
  /\ connect apiUrl w' = w'.
Proof.
  intros Hnot_open ws w'.
  destruct (connect_not_open apiUrl w Hnot_open) as (_ & Hsockets & Href & _).
  assert (Hws : ws < length (Hook.sockets (hook (connect apiUrl w)))).
  { rewrite Hsockets, length_app. simpl. subst ws. lia. }
  destruct (deliver_open_connected host ws (connect apiUrl w) Hws) as [Hstatus Hopen].
  assert (Href' : Hook.websocketRef (hook w') = Some ws).
  { subst w'. unfold deliver.
    destruct (lookup_lt_is_Some_2 _ _ Hws) as [st Hst]. rewrite Hst. exact Href. }
  assert (Hready : readyState (hook w') = Some ReadyState.OPEN).
  { unfold readyState. rewrite Href'. exact Hopen. }
  repeat split; try assumption.
  by apply connect_open_noop.
Qed.

Lemma connect_then_open_is_connected_witness :
  VoiceStore.connectionStatus (store connected_world) = ConnectionStatus.connected
  /\ connect apiUrl_default connected_world = connected_world.
Proof.
  destruct (connect_then_open_is_connected demo_host apiUrl_default initial_world)
    as (Hstatus & _ & _ & Hnoop); [discriminate|].
  exact (conj Hstatus Hnoop).
Defined.

Lemma resetConnection_not_open w :
  readyState (hook (resetConnection w)) = None
  /\ Hook.websocketRef (hook (resetConnection w)) = None.
Proof.
  unfold resetConnection, readyState.
  destruct (Hook.websocketRef (hook w)) eqn:Href; simpl; rewrite ?Href;
    split; reflexivity.
Qed.

(** [resetConnection] and then its timer always end on a fresh socket: the
    ref is cleared, so the guard of [connect] cannot hold; the socket left
    behind is not open any more; the session error is cleared.  Until the
    timer fires the connection status is what it was. *)
Theorem resetConnection_opens_fresh_socket (apiUrl : string) (w : World) :
  let w1 := resetConnection w in
  let w2 := resetConnection_timeout apiUrl w1 in
  VoiceStore.connectionStatus (store w1) = VoiceStore.connectionStatus (store w)
  /\ VoiceStore.error (store w2) = None
  /\ VoiceStore.connectionStatus (store w2) = ConnectionStatus.connecting
  /\ length (Hook.sockets (hook w2)) = S (length (Hook.sockets (hook w)))
  /\ readyState (hook w2) = Some ReadyState.CONNECTING
  /\ (forall ws, Hook.websocketRef (hook w) = Some ws ->
                 Hook.sockets (hook w2) !! ws <> Some ReadyState.OPEN).
Proof.
  intros w1 w2. subst w2. unfold resetConnection_timeout.
  destruct (resetConnection_not_open w) as [Hready Href].
  fold w1 in Hready, Href.
  destruct (connect_not_open apiUrl w1) as (Hstatus & Hsockets & Href2 & _).
  { rewrite Hready. discriminate. }
  set (w2 := connect apiUrl w1) in *.
  assert (Hlen : length (Hook.sockets (hook w1)) = length (Hook.sockets (hook w))).
  { subst w1. unfold resetConnection.
    destruct (Hook.websocketRef (hook w)); simpl; [apply length_alter | reflexivity]. }
  split.
  { subst w1. unfold resetConnection. by destruct (Hook.websocketRef (hook w)). }
  split.
  { subst w2. unfold connect.
    rewrite decide_False by (rewrite Hready; discriminate).
    subst w1. unfold resetConnection. by destruct (Hook.websocketRef (hook w)). }
  split; [exact Hstatus|].
  split; [rewrite Hsockets, length_app, Hlen; simpl; lia|].
  split.
  { unfold readyState. rewrite Href2. simpl. rewrite Hsockets.
    by rewrite lookup_app_r, Nat.sub_diag. }
  intros ws Hws. rewrite Hsockets.
  subst w1. unfold resetConnection. rewrite Hws. simpl.
  destruct (decide (ws < length (Hook.sockets (hook w)))) as [Hlt|Hge].
  - rewrite lookup_app_l by (rewrite length_alter; exact Hlt).
    rewrite list_lookup_alter, decide_True by reflexivity.
    destruct (Hook.sockets (hook w) !! ws) as [[]|]; simpl; discriminate.
  - destruct (decide (ws = length (Hook.sockets (hook w)))) as [->|Hne].
    + rewrite lookup_app_r by (rewrite length_alter; lia).
      rewrite length_alter, Nat.sub_diag. simpl. discriminate.
    + rewrite lookup_ge_None_2; [discriminate|].
      rewrite length_app, length_alter. simpl. lia.
Qed.

(** The handlers do not ask which socket an event comes from.  When a socket
    that the ref has left behind reports its close, the status turns to
    [disconnected] although the socket of the ref is as open as before; the
    record button is then disabled. *)
Theorem stale_close_disconnects_open_session (host : Host) (old : nat)
    (c : VoiceInterface.t) (w : World) :
  old < length (Hook.sockets (hook w)) ->
  Hook.websocketRef (hook w) <> Some old ->
  let w' := deliver host old close w in
  readyState (hook w') = readyState (hook w)
  /\ VoiceStore.connectionStatus (store w') = ConnectionStatus.disconnected
  /\ record_button_disabled c w' = true.
Proof.
  intros Hold Hother w'.
  assert (Hw' : w' = ws_onclose
            (with_hook (fun h => Ref.sockets
                          (<[old := ReadyState.CLOSED]> (Hook.sockets h)) h) w)).
  { subst w'. unfold deliver.
    by destruct (lookup_lt_is_Some_2 _ _ Hold) as [st ->]. }
  rewrite Hw'. split; [|split; reflexivity].
  unfold readyState. simpl.
  destruct (Hook.websocketRef (hook w)) as [ws|]; [|reflexivity]. simpl.
  apply list_lookup_insert_ne. congruence.
Qed.

Lemma stale_close_disconnects_open_session_witness :
  let w := connect_then_opened in
  readyState (hook w) = Some ReadyState.OPEN
  /\ readyState (hook (deliver demo_host 0 close w)) = Some ReadyState.OPEN
  /\ VoiceStore.connectionStatus (store (deliver demo_host 0 close w))
     = ConnectionStatus.disconnected.
Proof.
  intros w.
  destruct (stale_close_disconnects_open_session demo_host 0 ready_interface w)
    as (Hready & Hstatus & _); [simpl; lia | discriminate |].
  split; [reflexivity|]. split; [by rewrite Hready | exact Hstatus].
Defined.

(** ** More on recording and sending *)

Lemma string_app_nil_r (s : string) : s +:+ "" = s.
Proof.
  induction s as [|c s IH]; [reflexivity|].
  change (String c (s +:+ "") = String c s). by rewrite IH.
Qed.

Lemma string_app_assoc (a b c : string) : (a +:+ b) +:+ c = a +:+ (b +:+ c).
Proof.
  induction a as [|x a IH]; [reflexivity|].
  change (String x ((a +:+ b) +:+ c) = String x (a +:+ b +:+ c)). by rewrite IH.
Qed.

Lemma Blob_cons (c : string) (cs : list string) : Blob (c :: cs) = c +:+ Blob cs.
Proof. reflexivity. Qed.

Lemma Blob_app (a b : list string) : Blob (a ++ b) = Blob a +:+ Blob b.
Proof.
  induction a as [|c cs IH]; [reflexivity|].
  rewrite <- app_comm_cons, !Blob_cons, IH. by rewrite string_app_assoc.
Qed.




Lemma deliver_chunks_spec (chunks : list string) (w : World) :
  let w' := deliver_chunks chunks w in
  Hook.audioChunksRef (hook w')
  = Hook.audioChunksRef (hook w) ++ filter (fun data => data <> "") chunks
  /\ Blob (Hook.audioChunksRef (hook w'))
     = Blob (Hook.audioChunksRef (hook w)) +:+ Blob chunks
  /\ store w' = store w
  /\ trace w' = trace w
  /\ Hook.recorders (hook w') = Hook.recorders (hook w)
  /\ Hook.websocketRef (hook w') = Hook.websocketRef (hook w)
  /\ Hook.sockets (hook w') = Hook.sockets (hook w)
  /\ Hook.mediaRecorderRef (hook w') = Hook.mediaRecorderRef (hook w).
Proof.
  revert w. induction chunks as [|data chunks IH]; intros w.
  { simpl. rewrite app_nil_r. change (Blob []) with "". rewrite string_app_nil_r.
    repeat split. }
  destruct (IH (ondataavailable data w))
    as (Hchunks & Hblob & Hstore & Htrace & Hrec & Href & Hsockets & Hmref).
  change (deliver_chunks (data :: chunks) w)
    with (deliver_chunks chunks (ondataavailable data w)).
  cbv zeta. rewrite Hblob, Hchunks, Hstore, Htrace, Hrec, Href, Hsockets, Hmref.
  unfold ondataavailable. destruct data as [|c data].
  - rewrite decide_False by (simpl; lia).
    rewrite filter_cons_False by (intros H; by apply H).
    repeat split.
  - rewrite decide_True by (simpl; lia).
    rewrite filter_cons_True by discriminate.
    change (Hook.audioChunksRef (hook (with_hook ?f w)))
      with (Hook.audioChunksRef (hook w) ++ [String c data]).
    rewrite <- app_assoc, Blob_app, !Blob_cons.
    change (Blob []) with "". rewrite string_app_nil_r, string_app_assoc.
    repeat split.
Qed.

(** Chunks of size zero are not kept, which takes nothing from the blob: after
    any run of [dataavailable] events the blob of the kept chunks is the blob
    before followed by all the data delivered, in order.  The store and the
    trace are not touched. *)
Theorem deliver_chunks_keeps_all_data (chunks : list string) (w : World) :
  let w' := deliver_chunks chunks w in
  Hook.audioChunksRef (hook w')
  = Hook.audioChunksRef (hook w) ++ filter (fun data => data <> "") chunks
  /\ Blob (Hook.audioChunksRef (hook w'))
     = Blob (Hook.audioChunksRef (hook w)) +:+ Blob chunks
  /\ store w' = store w
  /\ trace w' = trace w.
Proof.
  destruct (deliver_chunks_spec chunks w) as (? & ? & ? & ? & _).
  repeat split; assumption.
Qed.



(** When the microphone is refused, or the recorder cannot be built, nothing
    starts: the store is as it was (the recording flag is not raised), no
    recorder is added and the ref keeps pointing where it did; the failure is
    logged and the user alerted. *)
Theorem startRecording_failure_starts_nothing (mic : Microphone) (w : World) :
  mic <> granted true ->
  let w' := startRecording mic w in
  store w' = store w
  /\ Hook.recorders (hook w') = Hook.recorders (hook w)
  /\ Hook.mediaRecorderRef (hook w') = Hook.mediaRecorderRef (hook w)
  /\ trace w'
     = trace w
       ++ [getUserMedia; console_error "Error starting recording:";
           alert "Unable to access microphone. Please check permissions."].
Proof.
  intros Hmic. destruct mic as [|[|]]; [|congruence|];
    unfold startRecording, startRecording_resumed, startRecording_call; simpl;
    rewrite <- !app_assoc; repeat split; by destruct (store w).
Qed.

Lemma startRecording_failure_starts_nothing_witness :
  VoiceStore.isRecording (store (startRecording denied initial_world)) = false
  /\ Hook.recorders (hook (startRecording denied initial_world)) = [].
Proof.
  destruct (startRecording_failure_starts_nothing denied initial_world)
    as (Hstore & Hrecorders & _); [discriminate|].
  split; [by rewrite Hstore | exact Hrecorders].
Defined.

(** Stopping twice is stopping once. *)
Theorem stopRecording_idempotent (w : World) :
  stopRecording (stopRecording w) = stopRecording w.
Proof.
  destruct (VoiceStore.isRecording (store w)) eqn:Hrecording.
  - destruct (Hook.mediaRecorderRef (hook w)) as [rec|] eqn:Href.
    + apply stopRecording_idle_noop.
      unfold stopRecording. by rewrite Href, Hrecording.
    + assert (Hnoop : stopRecording w = w) by (unfold stopRecording; by rewrite Href).
      by rewrite !Hnoop.
  - rewrite (stopRecording_idle_noop w Hrecording).
    by apply stopRecording_idle_noop.
Qed.

(** From a session that is not recording, what two toggles come to depends
    on when the microphone is granted.  When the grant comes between them,
    the second toggle stops the recorder the first one started: the
    recording flag is down, the processing flag up.  When the second toggle
    comes before the grant, it finds the flag still down and asks for the
    microphone again, changing nothing else; once both requests are granted
    two more recorders are recording and the recording flag is up. *)
Theorem toggle_twice_from_idle (w : World) :
  VoiceStore.isRecording (store w) = false ->
  let rec := length (Hook.recorders (hook w)) in
  let recording :=
    {| MediaRecorder.state := RecordingState.recording;
       MediaRecorder.tracks_live := true |} in
  let granted_between :=
    toggleRecording (startRecording_resumed (granted true) (toggleRecording w)) in
  let in_succession := toggleRecording (toggleRecording w) in
  let both_granted :=
    startRecording_resumed (granted true)
      (startRecording_resumed (granted true) in_succession) in
  (VoiceStore.isRecording (store granted_between) = false
   /\ VoiceStore.isProcessing (store granted_between) = true
   /\ MediaRecorder.state <$> Hook.recorders (hook granted_between) !! rec
      = Some RecordingState.inactive
   /\ trace granted_between
      = trace w ++ [getUserMedia; MediaRecorder_start rec 100; MediaRecorder_stop rec])
  /\ (store in_succession = store w
      /\ hook in_succession = hook w
      /\ trace in_succession = trace w ++ [getUserMedia; getUserMedia])
  /\ (VoiceStore.isRecording (store both_granted) = true
      /\ active_recorders both_granted = active_recorders w ++ [recording; recording]).
Proof.
  intros Hidle rec recording granted_between in_succession both_granted.
  assert (Hfirst : toggleRecording w = startRecording_call w).
  { unfold toggleRecording. by rewrite Hidle. }
  split; [|split].
  - destruct (startRecording_granted w) as (Hstore1 & Htrace1 & Hrecs1 & Hrecref1 & _).
    fold rec in Htrace1, Hrecref1.
    assert (Hw' : granted_between
                  = setProcessing true (setRecording false
                      (MediaRecorder_stop_call rec (startRecording (granted true) w)))).
    { subst granted_between. rewrite Hfirst.
      change (startRecording_resumed (granted true) (startRecording_call w))
        with (startRecording (granted true) w).
      unfold toggleRecording, stopRecording. by rewrite Hstore1, Hrecref1. }
    rewrite Hw'. remember (startRecording (granted true) w) as w1 eqn:Hw1.
    simpl. rewrite Htrace1, Hrecs1, <- app_assoc.
    repeat split.
    rewrite list_lookup_alter, decide_True by reflexivity.
    rewrite lookup_app_r by (subst rec; lia).
    subst rec. by rewrite Nat.sub_diag.
  - subst in_succession. rewrite Hfirst.
    unfold toggleRecording, startRecording_call. simpl. rewrite Hidle. simpl.
    rewrite <- app_assoc. by repeat split.
  - assert (Hsucc : in_succession = startRecording_call (startRecording_call w)).
    { subst in_succession. rewrite Hfirst.
      unfold toggleRecording, startRecording_call. simpl. by rewrite Hidle. }
    subst both_granted. rewrite Hsucc.
    set (w0 := startRecording_call (startRecording_call w)).
    destruct (startRecording_resumed_granted w0) as (Hstore1 & _ & Hrecs1 & _).
    set (w1 := startRecording_resumed (granted true) w0) in *.
    destruct (startRecording_resumed_granted w1) as (Hstore2 & _ & Hrecs2 & _).
    split; [by rewrite Hstore2|].
    rewrite (active_recorders_snoc w1 _ Hrecs2), (active_recorders_snoc w0 w1 Hrecs1).
    by rewrite <- app_assoc.
Qed.

Lemma toggle_twice_from_idle_witness :
  VoiceStore.isRecording
    (store (toggleRecording
              (startRecording_resumed (granted true) (toggleRecording initial_world))))
  = false
  /\ length
       (active_recorders
          (startRecording_resumed (granted true)
             (startRecording_resumed (granted true)
                (toggleRecording (toggleRecording initial_world))))) = 2.
Proof.
  destruct (toggle_twice_from_idle initial_world) as ((Hrecording & _) & _ & _ & Hactive);
    [reflexivity|].
  split; [exact Hrecording | by rewrite Hactive].
Defined.

(** ** Mounting, reconnecting and the record button *)

Lemma unmount_not_open (w : World) : readyState (hook (unmount w)) <> Some ReadyState.OPEN.
Proof.
  unfold unmount, readyState.
  destruct (Hook.websocketRef (hook w)) as [ws|] eqn:Href; simpl; rewrite Href; simpl;
    [|discriminate].
  rewrite list_lookup_alter, decide_True by reflexivity.
  destruct (Hook.sockets (hook w) !! ws) as [[]|]; simpl; discriminate.
Qed.

(** Unmounting closes the socket of the ref without clearing the ref; a mount
    that follows (with [autoConnect]) still connects afresh, whatever state
    the old socket was in. *)
Theorem remount_connects_afresh (apiUrl : string) (w : World) :
  let w' := mount apiUrl true (unmount w) in
  length (Hook.sockets (hook w')) = S (length (Hook.sockets (hook w)))
  /\ readyState (hook w') = Some ReadyState.CONNECTING
  /\ VoiceStore.connectionStatus (store w') = ConnectionStatus.connecting.
Proof.
  intros w'. subst w'. unfold mount.
  destruct (connect_not_open apiUrl (unmount w) (unmount_not_open w))
    as (Hstatus & Hsockets & Href & _).
  split; [|split; [|exact Hstatus]].
  - rewrite Hsockets, length_app. simpl.
    unfold unmount. destruct (Hook.websocketRef (hook w)); simpl;
      rewrite ?length_alter; lia.
  - unfold readyState. rewrite Href. simpl. rewrite Hsockets.
    by rewrite lookup_app_r, Nat.sub_diag.
Qed.

(** The reconnect button stays on screen until the timer of the first click
    has run, because [resetConnection] leaves the status at [error].  Two
    clicks set two timers, and the two calls of [connect] that follow build
    two sockets, both connecting, the ref on the second. *)
Theorem reconnect_clicked_twice_opens_two_sockets (apiUrl : string) (w : World) :
  VoiceStore.connectionStatus (store w) = ConnectionStatus.error ->
  let clicked := click_reconnect (click_reconnect w) in
  let w' := resetConnection_timeout apiUrl (resetConnection_timeout apiUrl clicked) in
  reconnect_button_shown (click_reconnect w) = true
  /\ Hook.sockets (hook w')
     = Hook.sockets (hook (resetConnection w))
       ++ [ReadyState.CONNECTING; ReadyState.CONNECTING]
  /\ Hook.websocketRef (hook w') = Some (S (length (Hook.sockets (hook w)))).
Proof.
  intros Herror clicked w'.
  assert (Hshown : reconnect_button_shown w = true).
  { unfold reconnect_button_shown. by rewrite Herror. }
  assert (Hstatus1 : VoiceStore.connectionStatus (store (resetConnection w))
                     = ConnectionStatus.error).
  { unfold resetConnection. by destruct (Hook.websocketRef (hook w)). }
  assert (Hshown1 : reconnect_button_shown (resetConnection w) = true).
  { unfold reconnect_button_shown. by rewrite Hstatus1. }
  assert (Hclicked : clicked = resetConnection (resetConnection w)).
  { subst clicked. unfold click_reconnect. by rewrite Hshown, Hshown1. }
  destruct (resetConnection_not_open w) as [_ Href1].
  assert (Hhook : Hook.sockets (hook clicked) = Hook.sockets (hook (resetConnection w))
                  /\ Hook.websocketRef (hook clicked) = None).
  { rewrite Hclicked. split; [|apply resetConnection_not_open].
    unfold resetConnection at 1. by rewrite Href1. }
  destruct Hhook as [Hsockets Href].
  assert (Hlen : length (Hook.sockets (hook (resetConnection w)))
                 = length (Hook.sockets (hook w))).
  { unfold resetConnection. destruct (Hook.websocketRef (hook w)); simpl;
      rewrite ?length_alter; reflexivity. }
  unfold resetConnection_timeout in w'.
  destruct (connect_not_open apiUrl clicked) as (_ & Hs1 & Hr1 & _).
  { unfold readyState. rewrite Href. discriminate. }
  destruct (connect_not_open apiUrl (connect apiUrl clicked)) as (_ & Hs2 & Hr2 & _).
  { unfold readyState. rewrite Hr1. simpl. rewrite Hs1.
    rewrite lookup_app_r, Nat.sub_diag by lia. discriminate. }
  split; [unfold click_reconnect; by rewrite Hshown|].
  subst w'. rewrite Hs2, Hr2, Hs1, Hsockets, <- app_assoc, length_app, Hlen. simpl.
  split; [reflexivity|]. f_equal. lia.
Qed.

Lemma reconnect_clicked_twice_opens_two_sockets_witness :
  let clicked := click_reconnect (click_reconnect failed_world) in
  Hook.sockets
    (hook (resetConnection_timeout apiUrl_default
             (resetConnection_timeout apiUrl_default clicked)))
  = [ReadyState.CLOSING; ReadyState.CONNECTING; ReadyState.CONNECTING].
Proof.
  intros clicked.
  destruct (reconnect_clicked_twice_opens_two_sockets apiUrl_default failed_world)
    as (_ & Hsockets & _); [reflexivity | exact Hsockets].
Defined.

(** The record button is disabled exactly when the line under it gives one
    of the four reasons; when it is enabled the line invites to speak or to
    stop, according to the recording flag. *)
Theorem record_button_disabled_iff_reason_shown (c : VoiceInterface.t) (w : World) :
  (record_button_disabled c w = true
   <-> getRecordButtonMessage c w
       ∈ ["Not connected to server"; "Audio not supported in this browser";
          "Microphone access denied"; "Processing your request..."])
  /\ (record_button_disabled c w = false ->
      getRecordButtonMessage c w
      = if VoiceStore.isRecording (store w) then "Listening... Click to stop"
        else "Click to speak").
Proof.
  unfold record_button_disabled, canRecord, getRecordButtonMessage.
  destruct (isConnected w), c as [sugg [] []],
    (VoiceStore.isProcessing (store w)), (VoiceStore.isRecording (store w));
    simpl; (split; [split|]);
    first [ intros _; apply (bool_decide_unpack _); by vm_compute
          | intros H; apply (bool_decide_pack _) in H; by vm_compute in H
          | intros H; discriminate H
          | reflexivity ].
Qed.

(** ** The role checks and the side bar *)

(** [hasRole] holds exactly for a user who is there and whose role is in the
    list; so nobody has a role out of the empty list, and a longer list never
    takes access away. *)
Theorem hasRole_iff (user : option User.t) (roles : list UserRole.t) :
  (Auth.hasRole user roles = true
   <-> exists u, user = Some u /\ User.role u ∈ roles)
  /\ Auth.hasRole user [] = false
  /\ (forall more, Auth.hasRole user roles = true ->
                   Auth.hasRole user (roles ++ more) = true).
Proof.
  unfold Auth.hasRole. destruct user as [u|].
  - split; [|split].
    + rewrite bool_decide_eq_true. split; [eauto|]. by intros (? & [= <-] & ?).
    + apply bool_decide_eq_false. apply not_elem_of_nil.
    + intros more. rewrite !bool_decide_eq_true, elem_of_app. tauto.
  - split; [|split]; [|reflexivity|discriminate].
    split; [discriminate|]. by intros (? & [=] & _).
Qed.

(** Who may use what: an administrator everything, a doctor the doctor
    features only, a patient the patient features only, staff and visitors
    nothing. *)
Theorem feature_access_by_role (user : option User.t) :
  (Auth.canAccessDoctorFeatures user, Auth.canAccessPatientFeatures user,
   Auth.canAccessAdminFeatures user)
  = match User.role <$> user with
    | Some UserRole.ADMIN => (true, true, true)
    | Some UserRole.DOCTOR => (true, false, false)
    | Some UserRole.PATIENT => (false, true, false)
    | Some UserRole.STAFF | None => (false, false, false)
    end.
Proof. destruct user as [[? ? ? [] ? ? ? ? ? ? ? ? ? ? ? ?]|]; reflexivity. Qed.

(** What the side bar shows, by role.  Without a user it is empty; the two
    administration entries show for administrators only; doctors do not get
    the doctors list nor patients the patients list. *)
Theorem side_bar_by_role (user : option User.t) :
  Auth.nav_id <$> Auth.getFilteredNavigationItems user
  = match User.role <$> user with
    | None => []
    | Some UserRole.ADMIN =>
        ["dashboard"; "voice"; "appointments"; "patients"; "doctors"; "admin-users";
         "admin-analytics"]
    | Some UserRole.DOCTOR => ["dashboard"; "voice"; "appointments"; "patients"]
    | Some UserRole.PATIENT => ["dashboard"; "voice"; "appointments"; "doctors"]
    | Some UserRole.STAFF => ["dashboard"; "voice"; "appointments"; "patients"; "doctors"]
    end.
Proof. destruct user as [[? ? ? [] ? ? ? ? ? ? ? ? ? ? ? ?]|]; reflexivity. Qed.

(** ** Requests of the auth store *)

(** A truthy token always ends up as [Authorization: Bearer <token>], even
    when the caller's own headers name an [Authorization]; without a token
    the caller's header, if any, goes through.  The content type is JSON
    unless the caller sets one. *)
Theorem request_headers_authorization (options_headers : option (gmap string string))
    (token : option string) :
  let headers := Auth.request_headers options_headers token in
  headers !! "Authorization"
  = (if truthy token then Some ("Bearer " +:+ default "" token)
     else default ∅ options_headers !! "Authorization")
  /\ headers !! "Content-Type"
     = Some (default "application/json" (default ∅ options_headers !! "Content-Type")).
Proof.
  unfold Auth.request_headers.
  destruct (truthy token); simpl.
  - rewrite lookup_insert_eq, lookup_insert_ne by discriminate.
    split; [reflexivity|].
    rewrite lookup_union. rewrite lookup_singleton_eq.
    by destruct (default ∅ options_headers !! "Content-Type").
  - rewrite !lookup_union, lookup_singleton_eq, lookup_singleton_ne by discriminate.
    split.
    + by destruct (default ∅ options_headers !! "Authorization").
    + by destruct (default ∅ options_headers !! "Content-Type").
Qed.



(** Everything the requests throw is an [Error]. *)
Lemma makeAuthenticatedRequest_throws_Error {A} (fetched : Auth.Fetched A) thrown :
  Auth.makeAuthenticatedRequest fetched = inr thrown -> exists msg, thrown = Auth.Error msg.
Proof. destruct fetched as [|[]| |]; simpl; intros [= <-]; eauto. Qed.

(** The requests that need the session carry its access token as bearer; the
    requests that open or renew a session carry no [Authorization] at all. *)
Theorem requests_carry_the_right_token (API_BASE_URL : string) (s : AuthState.t)
    (data : PartialUser.t) (current new email password : string)
    (registration : RegisterRequest.t) :
  (forall r,
      Auth.updateUser_request API_BASE_URL data s = Some r
      \/ Auth.changePassword_request API_BASE_URL current new s = Some r
      \/ Auth.checkAuth_request API_BASE_URL s = Some r ->
      exists token, AuthState.accessToken s = Some token /\ token <> ""
                    /\ Auth.headers r !! "Authorization" = Some ("Bearer " +:+ token))
  /\ (forall r,
      Auth.refresh_request API_BASE_URL s = Some r
      \/ r = Auth.login_request API_BASE_URL email password
      \/ r = Auth.register_request API_BASE_URL registration ->
      Auth.headers r !! "Authorization" = None).
Proof.
  split.
  - intros r Hr.
    unfold Auth.updateUser_request, Auth.changePassword_request, Auth.checkAuth_request
      in Hr.
    destruct (truthy (AuthState.accessToken s)) eqn:Htoken;
      [|destruct Hr as [|[|]]; discriminate].
    destruct (truthy_inv _ Htoken) as (token & Hsome & Hnonempty).
    exists token. split; [exact Hsome|]. split; [exact Hnonempty|].
    destruct Hr as [[= <-]|[[= <-]|[= <-]]]; simpl;
      unfold Auth.request_headers; rewrite Htoken, Hsome; apply lookup_insert_eq.
  - intros r Hr. unfold Auth.refresh_request in Hr.
    destruct Hr as [Hr|[->| ->]]; [|reflexivity..].
    destruct (truthy (AuthState.refreshToken s)); [|discriminate].
    by injection Hr as <-.
Qed.

(** ** The auth store *)

(** A login that succeeds with an empty access token leaves a session that
    says [isAuthenticated], with the user of the response, and a token that
    every guard of the store takes for none: [updateUser] and
    [changePassword] report [Not authenticated], and [checkAuth] returns at
    once, leaving the session as it is. *)
Theorem login_with_empty_token (response : LoginResponse.t) (s : AuthState.t)
    (update : Auth.Fetched PartialUser.t) (change : Auth.Fetched unit)
    (rounds : list (Auth.Fetched User.t * Auth.Fetched string)) :
  LoginResponse.access_token response = "" ->
  let s' := fst (Auth.login (Auth.ok_json response) s) in
  AuthState.isAuthenticated s' = true
  /\ AuthState.user s' = Some (LoginResponse.user response)
  /\ AuthState.accessToken s' = Some ""
  /\ snd (Auth.updateUser update s') = Some (Auth.Error "Not authenticated")
  /\ snd (Auth.changePassword change s') = Some (Auth.Error "Not authenticated")
  /\ Auth.checkAuth rounds s' = Some s'.
Proof.
  intros Hempty. unfold Auth.login, Auth.updateUser, Auth.changePassword. simpl.
  rewrite Hempty. repeat split. by destruct rounds.
Qed.

Lemma login_with_empty_token_witness :
  let response :=
    {| LoginResponse.access_token := ""; LoginResponse.refresh_token := "refresh-1";
       LoginResponse.token_type := "bearer"; LoginResponse.user := dr_grey |} in
  let s' := fst (Auth.login (Auth.ok_json response) Auth.initial) in
  AuthState.isAuthenticated s' = true
  /\ snd (Auth.changePassword unauthorized s') = Some (Auth.Error "Not authenticated").
Proof.
  intros response s'.
  destruct (login_with_empty_token response Auth.initial unauthorized unauthorized [])
    as (Hauth & _ & _ & _ & Hchange & _); [reflexivity|].
  exact (conj Hauth Hchange).
Defined.

(** When [login], [register], [updateUser] or [changePassword] throws, what
    it throws is an [Error], and the store shows that error's own message:
    the fallback texts of the handlers never reach the user. *)
Theorem failure_shows_thrown_message (s : AuthState.t)
    (result : AuthState.t * option Auth.Thrown) (thrown : Auth.Thrown) :
  (exists fetched, result = Auth.login fetched s)
  \/ (exists registered logged_in, result = Auth.register registered logged_in s)
  \/ (exists fetched, result = Auth.updateUser fetched s)
  \/ (exists fetched, result = Auth.changePassword fetched s) ->
  snd result = Some thrown ->
  exists msg,
    thrown = Auth.Error msg
    /\ AuthState.error (fst result)
       = Some {| AuthError.message := msg; AuthError.field := None |}.
Proof.
  intros [[f ->]|[(r & l & ->)|[[f ->]|[f ->]]]];
    unfold Auth.register, Auth.login, Auth.updateUser, Auth.changePassword.
  - destruct (Auth.makeAuthenticatedRequest f) as [|t] eqn:Hf; simpl; [discriminate|].
    intros [= <-]. destruct (makeAuthenticatedRequest_throws_Error _ _ Hf) as [msg ->].
    eauto.
  - destruct (Auth.makeAuthenticatedRequest r) as [|t] eqn:Hr; simpl.
    + destruct (Auth.makeAuthenticatedRequest l) as [|t] eqn:Hl; simpl; [discriminate|].
      intros [= <-]. destruct (makeAuthenticatedRequest_throws_Error _ _ Hl) as [msg ->].
      eauto.
    + intros [= <-]. destruct (makeAuthenticatedRequest_throws_Error _ _ Hr) as [msg ->].
      eauto.
  - destruct (truthy (AuthState.accessToken s)); simpl; [|intros [= <-]; eauto].
    destruct (Auth.makeAuthenticatedRequest f) as [|t] eqn:Hf; simpl; [discriminate|].
    intros [= <-]. destruct (makeAuthenticatedRequest_throws_Error _ _ Hf) as [msg ->].
    eauto.
  - destruct (truthy (AuthState.accessToken s)); simpl; [|intros [= <-]; eauto].
    destruct (Auth.makeAuthenticatedRequest f) as [|t] eqn:Hf; simpl; [discriminate|].
    intros [= <-]. destruct (makeAuthenticatedRequest_throws_Error _ _ Hf) as [msg ->].
    eauto.
Qed.

Lemma failure_shows_thrown_message_witness :
  AuthState.error (fst (Auth.login unauthorized grey_session))
  = Some {| AuthError.message := "Token expired"; AuthError.field := None |}.
Proof.
  destruct (failure_shows_thrown_message grey_session
              (Auth.login unauthorized grey_session) (Auth.Error "Token expired"))
    as (msg & Hmsg & Herror); [left; by eexists | reflexivity |].
  injection Hmsg as <-. exact Herror.
Defined.

(** [login] always ends with the loading flag down.  When it returns, the
    session is that of the response.  When it throws, user, tokens and
    [isAuthenticated] are what they were: a failed login does not end a
    session that was there. *)
Theorem login_outcomes (fetched : Auth.Fetched LoginResponse.t) (s : AuthState.t) :
  let s' := fst (Auth.login fetched s) in
  AuthState.isLoading s' = false
  /\ match Auth.makeAuthenticatedRequest fetched, snd (Auth.login fetched s) with
     | inl response, None =>
         AuthState.user s' = Some (LoginResponse.user response)
         /\ AuthState.accessToken s' = Some (LoginResponse.access_token response)
         /\ AuthState.refreshToken s' = Some (LoginResponse.refresh_token response)
         /\ AuthState.isAuthenticated s' = true
         /\ AuthState.error s' = None
     | inr thrown, Some thrown' =>
         thrown' = thrown
         /\ Auth.partialize s' = Auth.partialize s
         /\ is_Some (AuthState.error s')
     | _, _ => False
     end.
Proof.
  unfold Auth.login. destruct (Auth.makeAuthenticatedRequest fetched); simpl.
  - repeat split.
  - repeat split. by eexists.
Qed.

(** [refreshTokens] either renews the access token and nothing else, or logs
    out: it throws exactly when there is no refresh token to send or the
    request fails, and then nothing of the session is left for storage. *)
Theorem refreshTokens_renews_or_logs_out (fetched : Auth.Fetched string)
    (s : AuthState.t) :
  let s' := fst (Auth.refreshTokens fetched s) in
  AuthState.error s' = None
  /\ AuthState.isLoading s' = AuthState.isLoading s
  /\ match snd (Auth.refreshTokens fetched s) with
     | None =>
         truthy (AuthState.refreshToken s) = true
         /\ (exists access_token,
                Auth.makeAuthenticatedRequest fetched = inl access_token
                /\ AuthState.accessToken s' = Some access_token)
         /\ AuthState.user s' = AuthState.user s
         /\ AuthState.refreshToken s' = AuthState.refreshToken s
         /\ AuthState.isAuthenticated s' = AuthState.isAuthenticated s
     | Some thrown =>
         Auth.partialize s' = nobody
         /\ (truthy (AuthState.refreshToken s) = false ->
             thrown = Auth.Error "No refresh token available")
     end.
Proof.
  unfold Auth.refreshTokens.
  destruct (truthy (AuthState.refreshToken s)); simpl.
  - destruct (Auth.makeAuthenticatedRequest fetched); simpl.
    + repeat split. eauto.
    + repeat split. discriminate.
  - repeat split.
Qed.



(** [checkAuth] has no bound on its retries: while the profile request keeps
    failing and the refresh keeps bringing a non-empty token, it calls itself
    again, so no number of such rounds sees it return. *)
Theorem checkAuth_retries_without_bound (me : Auth.Fetched User.t) (thrown : Auth.Thrown)
    (access_token : string) (n : nat) (s : AuthState.t) :
  Auth.makeAuthenticatedRequest me = inr thrown ->
  access_token <> "" ->
  truthy (AuthState.accessToken s) = true ->
  truthy (AuthState.refreshToken s) = true ->
  Auth.checkAuth (replicate n (me, Auth.ok_json access_token)) s = None.
Proof.
  intros Hme Hnonempty. apply truthy_Some in Hnonempty.
  revert s. induction n as [|n IH]; intros s Haccess Hrefresh; simpl; rewrite Haccess;
    [reflexivity|].
  rewrite Hme. unfold Auth.refreshTokens. rewrite Hrefresh. simpl.
  by apply IH.
Qed.

Lemma checkAuth_retries_without_bound_witness :
  Auth.checkAuth (replicate 5 (unauthorized, Auth.ok_json "access-2")) grey_session = None.
Proof.
  apply (checkAuth_retries_without_bound unauthorized (Auth.Error "Token expired")
           "access-2" 5 grey_session); first [reflexivity | discriminate].
Defined.

(** ** Instances *)

Lemma hasRole_iff_witness :
  Auth.hasRole (Some dr_grey) [UserRole.DOCTOR] = true
  /\ Auth.hasRole (Some dr_grey) ([UserRole.DOCTOR] ++ [UserRole.ADMIN]) = true.
Proof.
  destruct (hasRole_iff (Some dr_grey) [UserRole.DOCTOR]) as (_ & _ & Hmore).
  assert (Hdoctor : Auth.hasRole (Some dr_grey) [UserRole.DOCTOR] = true) by reflexivity.
  exact (conj Hdoctor (Hmore [UserRole.ADMIN] Hdoctor)).
Defined.

Lemma requests_carry_the_right_token_witness :
  exists r token,
    Auth.checkAuth_request "http://localhost:8000" grey_session = Some r
    /\ AuthState.accessToken grey_session = Some token
    /\ Auth.headers r !! "Authorization" = Some ("Bearer " +:+ token).
Proof.
  destruct (requests_carry_the_right_token "http://localhost:8000" grey_session
              (PartialUser.mk None None None None None None None None None None None None
                 None None None None)
              "old" "new" "grey@example.org" "secret"
              {| RegisterRequest.email := "grey@example.org";
                 RegisterRequest.password := "secret";
                 RegisterRequest.role := UserRole.DOCTOR;
                 RegisterRequest.first_name := "Meredith";
                 RegisterRequest.last_name := "Grey";
                 RegisterRequest.phone := None; RegisterRequest.department := None |})
    as [Hbearer _].
  destruct (Hbearer _ (or_intror (or_intror eq_refl))) as (token & Htoken & _ & Hheader).
  eexists _, token. split; [reflexivity|]. split; [exact Htoken | exact Hheader].
Defined.

Lemma record_button_disabled_iff_reason_shown_witness :
  record_button_disabled ready_interface connected_world = false
  /\ getRecordButtonMessage ready_interface connected_world = "Click to speak"
  /\ record_button_disabled ready_interface failed_world = true.
Proof.
  destruct (record_button_disabled_iff_reason_shown ready_interface connected_world)
    as [_ Henabled].
  destruct (record_button_disabled_iff_reason_shown ready_interface failed_world)
    as [[_ Hreason] _].
  assert (Hfalse : record_button_disabled ready_interface connected_world = false)
    by reflexivity.
  split; [exact Hfalse|]. split; [exact (Henabled Hfalse)|].
  apply Hreason. apply (bool_decide_unpack _). by vm_compute.
Defined.

Lemma updateLastMessage_patches_last_only_witness :
  let updates :=
    PartialMessage.mk None None None None None None None (Some true) None in
  updateLastMessage updates initial_world = initial_world
  /\ VoiceMessage.isAudio
     <$> last (VoiceStore.messages
                 (store (updateLastMessage updates
                           (processVoiceResponse demo_host booking_response
                              initial_world))))
     = Some (Some true).
Proof.
  intros updates.
  destruct (updateLastMessage_patches_last_only updates initial_world)
    as (_ & _ & _ & Hempty).
  destruct (updateLastMessage_patches_last_only updates
              (processVoiceResponse demo_host booking_response initial_world))
    as (_ & _ & Hlast & _).
  split; [by apply Hempty|]. by rewrite Hlast.
Defined.

Lemma resetConnection_opens_fresh_socket_witness :
  let w := resetConnection_timeout apiUrl_default (resetConnection connected_world) in
  Hook.sockets (hook w) !! 0 <> Some ReadyState.OPEN
  /\ readyState (hook w) = Some ReadyState.CONNECTING.
Proof.
  intros w.
  destruct (resetConnection_opens_fresh_socket apiUrl_default connected_world)
    as (_ & _ & _ & _ & Hready & Hold).
  split; [by apply Hold | exact Hready].
Defined.

Lemma refreshTokens_renews_or_logs_out_witness :
  AuthState.isAuthenticated grey_session = true
  /\ Auth.partialize (fst (Auth.refreshTokens unauthorized grey_session)) = nobody.
Proof.
  destruct (refreshTokens_renews_or_logs_out unauthorized grey_session)
    as (_ & _ & Hthrown).
  split; [reflexivity|]. exact (proj1 Hthrown).
Defined.
